(** * Group task controller (website/server/controllers/api-v3/tasks/groups.js)

    A shallow embedding of the group-task handlers: the edit-authorization
    predicate [canNotEditTasks], and the handlers [groupMoveTask],
    [assignTask], [unassignTask], [approveTask] and [taskNeedsWork].

    Conventions of the embedding.
    - Identifiers, notification kinds and messages are JavaScript strings.
    - A JavaScript object used as a dictionary ([group.managers],
      [group.tasksOrder]) is a [gmap] keyed by strings.
    - An array is a list; an entry that may be [null] or [undefined] is an
      [option].
    - A handler is embedded from [let user = res.locals.user] on, with the
      request parameters already validated; it runs in the monad [M], which
      threads the log of collaborator calls started so far ([save()],
      [sendChat], [syncTask], ...) and stops at the first [throw].  The log
      survives a throw: a [save()] that was started is not undone. *)

From stdpp Require Import gmap strings list.

Open Scope string_scope.
Open Scope list_scope.
Open Scope Z_scope.

(** ** JavaScript helpers *)

(** Truthiness of a string: only the empty string is falsy. *)
Definition truthy (s : string) : bool := negb (String.eqb s "").

(** [Array.prototype.findIndex]: index of the first element satisfying
    the callback, [-1] when there is none. *)
Fixpoint findIndex {A : Type} (callback : A -> bool) (l : list A) : Z :=
  match l with
  | [] => -1
  | x :: rest =>
      if callback x then 0
      else let i := findIndex callback rest in
           if i =? -1 then -1 else i + 1
  end.

(** [array[i]] for an integer [i]: [undefined] out of range. *)
Definition at_index {A : Type} (l : list A) (i : Z) : option A :=
  if i <? 0 then None else nth_error l (Z.to_nat i).

(** [array.splice(start, 1)]: removes one element at [start]; a negative
    [start] counts from the end, and both are clamped to the array. *)
Definition splice1 {A : Type} (start : Z) (l : list A) : list A :=
  let len := Z.of_nat (length l) in
  let from := if start <? 0 then Z.max (len + start) 0 else Z.min start len in
  take (Z.to_nat from) l ++ drop (S (Z.to_nat from)) l.

(** [array.splice(start, 0, x)]: inserts [x] at [start], same clamping. *)
Definition splice_insert {A : Type} (start : Z) (x : A) (l : list A) : list A :=
  let len := Z.of_nat (length l) in
  let from := if start <? 0 then Z.max (len + start) 0 else Z.min start len in
  take (Z.to_nat from) l ++ x :: drop (Z.to_nat from) l.

(** ** Data model *)

Record Approval := mkApproval {
  requested : bool;
  requestedDate : option Z;
  approved : bool;
  dateApproved : option Z;
  approvingUser : option string;
}.

(** [task.group]: [id] and [taskId] are absent on a task that is not
    linked to a group. *)
Record TaskGroup := mkTaskGroup {
  tg_id : option string;
  tg_taskId : option string;
  approval : Approval;
}.

Record Task := mkTask {
  t_id : string;
  t_type : string;
  completed : bool;
  text : string;
  alias : option string;
  userId : option string;
  t_group : TaskGroup;
}.

(** Values stored in a notification's [data] object. *)
#[warnings="-register-all"]
Inductive jsval :=
  | JUndefined
  | JStr (s : string)
  | JTask (t : Task)
  | JObj (fields : list (string * jsval)).

Definition jsobject := list (string * jsval).

(** [obj[key]]. *)
Fixpoint prop (key : string) (obj : jsobject) : option jsval :=
  match obj with
  | [] => None
  | (k, v) :: rest => if String.eqb k key then Some v else prop key rest
  end.

Record Notification := mkNotification {
  n_type : string;
  n_data : option jsobject;
  n_direction : option string;
}.

Record User := mkUser {
  u_id : string;
  profile_name : string;
  preferences_language : string;
  notifications : list (option Notification);
}.

Record Group := mkGroup {
  g_id : string;
  leader : string;
  managers : gmap string bool;
  g_name : string;
  tasksOrder : gmap string (list string);
}.

Definition set_notifications (l : list (option Notification)) (u : User) : User :=
  mkUser (u_id u) (profile_name u) (preferences_language u) l.

Definition set_approval (a : Approval) (t : Task) : Task :=
  mkTask (t_id t) (t_type t) (completed t) (text t) (alias t) (userId t)
         (mkTaskGroup (tg_id (t_group t)) (tg_taskId (t_group t)) a).

Definition set_tasksOrder (o : gmap string (list string)) (g : Group) : Group :=
  mkGroup (g_id g) (leader g) (managers g) (g_name g) o.

(** ** canNotEditTasks (groups.js, lines 19-24) *)

(** [group.managers] is a plain object: a key it does not hold itself is
    looked up on [Object.prototype], whose members are these. *)
Definition Object_prototype : list string :=
  ["constructor"; "hasOwnProperty"; "isPrototypeOf"; "propertyIsEnumerable";
   "toLocaleString"; "toString"; "valueOf"; "__proto__";
   "__defineGetter__"; "__defineSetter__"; "__lookupGetter__"; "__lookupSetter__"].

Definition inherited (key : string) : bool :=
  existsb (String.eqb key) Object_prototype.

(** [Boolean(obj[key])] on a plain object of booleans: the object's own
    entry when it has one, and otherwise the inherited member, a function
    or an object, which is truthy. *)
Definition truthy_at (obj : gmap string bool) (key : string) : bool :=
  match obj !! key with
  | Some b => b
  | None => inherited key
  end.

Definition canNotEditTasks (group : Group) (user : User)
    (assignedUserId : option string) : bool :=
  let isNotGroupLeader := negb (String.eqb (leader group) (u_id user)) in
  let isManager := truthy_at (managers group) (u_id user) in
  let userIsAssigningToSelf :=
    match assignedUserId with
    | None => false
    | Some a => truthy a && String.eqb (u_id user) a
    end in
  isNotGroupLeader && negb isManager && negb userIsAssigningToSelf.

(** The spec's [canEdit] is the negation of the source's predicate. *)
Definition canEdit (group : Group) (user : User)
    (assignedUserId : option string) : bool :=
  negb (canNotEditTasks group user assignedUserId).

(** ** Errors, collaborator calls and the handler monad *)

(** The errors of libs/errors, each with its message, and the [TypeError]
    JavaScript raises on a property access of [null] or [undefined]. *)
Inductive error :=
  | NotFound (message : string)
  | NotAuthorized (message : string)
  | BadRequest (message : string)
  | TypeError.

(** Calls on collaborators outside this file, in the order they are started. *)
Inductive effect :=
  | SaveUser (u : User)
  | SaveTask (t : Task)
  | SaveGroup (g : Group)
  | SendChat (g : Group) (message : string)
  | SaveMessage (message : string)
  | SyncTask (g : Group) (t : Task) (assignedUser : option User)
  | UnlinkTask (g : Group) (t : Task) (assignedUser : option User).

Definition M (A : Type) : Type := list effect -> (error + A) * list effect.

Definition ret {A : Type} (a : A) : M A := fun log => (inr a, log).

Definition throw {A : Type} (e : error) : M A := fun log => (inl e, log).

Definition bind {A B : Type} (m : M A) (k : A -> M B) : M B :=
  fun log =>
    match m log with
    | (inl e, log') => (inl e, log')
    | (inr a, log') => k a log'
    end.

Definition emit (e : effect) : M unit := fun log => (inr tt, log ++ [e]).

Notation "'let*' x ':=' m 'in' k" := (bind m (fun x => k))
  (at level 10, x name, m at level 100, k at level 200).

(** [if (cond) throw e]. *)
Definition throw_if (cond : bool) (e : error) : M unit :=
  if cond then throw e else ret tt.

(** [if (!x) throw e], and a property access on a possibly absent [x]. *)
Definition or_throw {A : Type} (x : option A) (e : error) : M A :=
  match x with
  | Some a => ret a
  | None => throw e
  end.

(** A handler is run from an empty log. *)
Definition run {A : Type} (m : M A) : (error + A) * list effect := m [].

(** ** The stores *)

(** Modelled from the spec: the task, group and user stores are missing
    from the sources (models/task, models/group, models/user); the spec
    gives them as key-addressable stores with lookups returning the entity
    or absent.  A store is the sequence of its documents in the store's
    natural order. *)
Record DB := mkDB {
  users : list User;
  tasks : list Task;
  groups : list Group;
}.

(** A query condition [{field: value}] on an optional string field. *)
Definition field_is (field : option string) (value : string) : bool :=
  match field with
  | Some s => String.eqb s value
  | None => false
  end.

(** Modelled from the spec: [User.findById], the user store's
    [findUserById(id) -> User|absent]. *)
Definition User_findById (db : DB) (id : string) : option User :=
  List.find (fun u => String.eqb (u_id u) id) (users db).

(** Modelled from the spec: [User.find({_id: ids})], the user store's
    [findUsers(ids, projection) -> sequence of User], in the store's order. *)
Definition User_find (db : DB) (ids : list string) : list User :=
  List.filter (fun u => existsb (String.eqb (u_id u)) ids) (users db).

(** Modelled from the spec: [Tasks.Task.findOne(query)], the first task
    of the store satisfying the query. *)
Definition Task_findOne (db : DB) (query : Task -> bool) : option Task :=
  List.find query (tasks db).

(** Modelled from the spec: [Tasks.Task.findByIdOrAlias(identifier, userId)],
    the task with this id, or the user's task with this alias. *)
Definition Task_findByIdOrAlias (db : DB) (identifier userId' : string) : option Task :=
  Task_findOne db (fun t =>
    String.eqb (t_id t) identifier
    || (field_is (alias t) identifier && field_is (userId t) userId')).

(** Modelled from the spec: [task.save()], the per-entity save of the task
    store: the stored document with this id is replaced. *)
Definition Task_save (t : Task) (db : DB) : DB :=
  mkDB (users db)
       (map (fun x => if String.eqb (t_id x) (t_id t) then t else x) (tasks db))
       (groups db).

(** Modelled from the spec: [user.addNotification(type, data)], the
    notification ledger's [append]: a notification of this kind and payload
    is added at the end of the user's list. *)
Definition addNotification (type : string) (data : jsobject) (u : User) : User :=
  set_notifications (notifications u ++ [Some (mkNotification type (Some data) None)]) u.

(** Modelled from the spec: [moveTask(order, taskId, to)] of libs/taskManager,
    the spec's PositionIndex.move: the id is removed from its current
    position if present, then appended when [to] is [-1], and otherwise
    inserted at index [to] with the array's own clamping. *)
Definition moveTask (order : list string) (taskId : string) (to : Z) : list string :=
  let currentIndex := findIndex (String.eqb taskId) order in
  let removed := if currentIndex =? -1 then order else splice1 currentIndex order in
  if to =? -1 then removed ++ [taskId] else splice_insert to taskId removed.

(** [Object.keys(obj)]. *)
Definition Object_keys {V : Type} (obj : gmap string V) : list string :=
  (map_to_list obj).*1.

(** ** The pending-approval scan (lines 319-321, 330-332, 419-421) *)

(** The callback given to [findIndex]:
    [notification && notification.data && notification.data.taskId === task._id
     && notification.type === 'GROUP_TASK_APPROVAL']. *)
Definition findNotification (task_id : string)
    (notification : option Notification) : bool :=
  match notification with
  | None => false
  | Some n =>
      match n_data n with
      | None => false
      | Some data =>
          match prop "taskId" data with
          | Some (JStr s) => String.eqb s task_id
          | _ => false
          end
          && String.eqb (n_type n) "GROUP_TASK_APPROVAL"
      end
  end.

(** The body of [managers.forEach] (lines 329-338 and 418-427): the first
    matching notification is spliced out of the manager's list and the
    manager is saved; a manager without one is left alone.  Returns the
    managers as the loop leaves them. *)
Fixpoint removeOldNotifications (task_id : string) (managers' : list User)
    : M (list User) :=
  match managers' with
  | [] => ret []
  | manager :: rest =>
      let notificationIndex :=
        findIndex (findNotification task_id) (notifications manager) in
      let* manager' :=
        (if negb (notificationIndex =? -1)
         then let m := set_notifications
                         (splice1 notificationIndex (notifications manager))
                         manager in
              let* _ := emit (SaveUser m) in ret m
         else ret manager) in
      let* rest' := removeOldNotifications task_id rest in
      ret (manager' :: rest')
  end.

(** What the loop does to one manager, and whether it saves that manager. *)
Definition holdsPending (task_id : string) (manager : User) : bool :=
  negb (findIndex (findNotification task_id) (notifications manager) =? -1).

Definition clearPending (task_id : string) (manager : User) : User :=
  if holdsPending task_id manager
  then set_notifications
         (splice1 (findIndex (findNotification task_id) (notifications manager))
                  (notifications manager))
         manager
  else manager.

(** The frame of the loop in the spec's words: a user of the set holding a
    pending approval for the task loses its first occurrence, everything
    else in that user's list staying in order, and is saved; a user holding none is
    unchanged and is not saved. *)
Inductive cleared (task_id : string) : list User -> list User -> list effect -> Prop :=
  | cleared_nil : cleared task_id [] [] []
  | cleared_untouched manager rest rest' saves :
      (forall n, In n (notifications manager) -> findNotification task_id n = false) ->
      cleared task_id rest rest' saves ->
      cleared task_id (manager :: rest) (manager :: rest') saves
  | cleared_removed manager before n after rest rest' saves :
      notifications manager = before ++ n :: after ->
      (forall x, In x before -> findNotification task_id x = false) ->
      findNotification task_id n = true ->
      cleared task_id rest rest' saves ->
      cleared task_id (manager :: rest)
              (set_notifications (before ++ after) manager :: rest')
              (SaveUser (set_notifications (before ++ after) manager) :: saves).


(** A notification entry that is [null], [undefined] or has no [data]. *)
Definition malformed (notification : option Notification) : bool :=
  match notification with
  | None => true
  | Some n => match n_data n with None => true | Some _ => false end
  end.

(** The direction lookup as the spec words it: the first pending approval
    for the task across all the fetched users, ['up'] when there is none. *)
Definition spec_directionAcrossSet (task_id : string) (managers' : list User) : jsval :=
  match List.find (findNotification task_id) (concat (map notifications managers')) with
  | Some (Some n) => from_option JStr JUndefined (n_direction n)
  | _ => JStr "up"
  end.

(** ** Listing, creating and reading group tasks: the data they answer *)

(** Modelled from the spec: [Tasks.Task.find(query)], every task of the
    store satisfying the query, in the store's order. *)
Definition Task_find (db : DB) (query : Task -> bool) : list Task :=
  List.filter query (tasks db).

(** A task as [getGroupApprovals] answers it: projected on
    ['userId group text'], with [userId] populated by the user document
    ([null] when the id resolves to no user). *)
Record ApprovalRow := mkApprovalRow {
  row_id : string;
  row_userId : option User;
  row_group : TaskGroup;
  row_text : string;
}.

(** Modelled from the spec: [.populate('userId', 'profile')] on one task. *)
Definition populate_userId (db : DB) (t : Task) : ApprovalRow :=
  mkApprovalRow (t_id t) (userId t ≫= User_findById db) (t_group t) (text t).

(** The body of the response of [createGroupTasks]: one task or an array. *)
Inductive TaskBody :=
  | OneTask (t : Task)
  | TaskArray (l : list Task).

(** A call [res.analytics.track(event, properties)]. *)
Record Tracked := mkTracked {
  event : string;
  uuid : string;
  hitType : string;
  category : string;
  taskType : string;
  groupID : string;
}.

(** How many pending approvals for the task a user holds. *)
Definition pendingCount (task_id : string) (u : User) : nat :=
  length (List.filter (findNotification task_id) (notifications u)).

(** ** A concrete group: leader, one manager, one assigned member *)

Module Scenario.

(** The localization renders a key as itself, marked with the locale when
    one is passed. *)
Definition res_t (key : string) (vars : list (string * string))
    (locale : option string) : string :=
  match locale with
  | Some l => key +:+ "@" +:+ l
  | None => key
  end.

Definition canAccess (user : User) (group : Group) : bool := true.

Definition pending (direction : string) : option Notification :=
  Some (mkNotification "GROUP_TASK_APPROVAL"
          (Some [("groupId", JStr "g1"); ("taskId", JStr "t1")])
          (Some direction)).

Definition greeting : option Notification :=
  Some (mkNotification "WELCOME" (Some [("message", JStr "hello")]) None).

Definition lea : User := mkUser "lea" "Lea" "en" [None; greeting; pending "down"].
Definition max : User := mkUser "max" "Max" "de" [pending "down"; greeting].
Definition ann : User := mkUser "ann" "Ann" "fr" [greeting].

Definition group1 : Group :=
  mkGroup "g1" "lea" {[ "max" := true ]} "Guild"
          {[ "todos" := ["T"; "U"; "V"] ]}.

(** Ann's linked copy of the group task [T], with the given approval flags. *)
Definition linked (requested' approved' : bool) : Task :=
  mkTask "t1" "todo" false "Write the report" None (Some "ann")
         (mkTaskGroup (Some "g1") (Some "T")
                      (mkApproval requested' None approved' None None)).

(** The group task itself. *)
Definition canonical : Task :=
  mkTask "T" "todo" false "Write the report" None None
         (mkTaskGroup (Some "g1") None (mkApproval false None false None None)).

Definition db : DB :=
  mkDB [lea; max; ann] [linked true false; canonical] [group1].

(** A personal task of Ann, belonging to no group. *)
Definition personal : Task :=
  mkTask "P" "todo" false "Water the plants" None (Some "ann")
         (mkTaskGroup None None (mkApproval false None false None None)).

(** A second linked task of Ann in the group, approval requested. *)
Definition linked2 : Task :=
  mkTask "t2" "daily" false "Tidy the hall" None (Some "ann")
         (mkTaskGroup (Some "g1") (Some "U")
                      (mkApproval true None false None None)).

Definition db_two : DB :=
  mkDB [lea; max; ann] [linked true false; linked2] [group1].

(** A completed todo of the group. *)
Definition finished : Task :=
  mkTask "D" "todo" true "Book the room" None None
         (mkTaskGroup (Some "g1") None (mkApproval false None false None None)).

(** A group with two buckets, and one of its todos. *)
Definition group2 : Group :=
  mkGroup "g2" "lea" ∅ "Party"
          {[ "todos" := ["T2"; "U2"]; "habits" := ["H"] ]}.

Definition canonical2 : Task :=
  mkTask "T2" "todo" false "Buy paint" None None
         (mkTaskGroup (Some "g2") None (mkApproval false None false None None)).

Definition db_party : DB := mkDB [lea] [canonical2] [group2].

(** The task collaborators: one task is created; the group's tasks are read. *)
Definition createTasks (user : User) (group : Group) : error + list Task :=
  inr [canonical].

Definition getTasks (user : User) (group : Group) : error + list Task :=
  inr [canonical; finished].





End Scenario.

(** ** The handlers *)

Section Handlers.

(** [res.t(key, vars, locale)], the localization collaborator, an opaque
    formatter; [None] stands for a call without the locale argument. *)
Variable res_t : string -> list (string * string) -> option string -> string.

(** Which groups [Group.getGroup] lets a user read. *)
Variable canAccess : User -> Group -> bool.

(** Modelled from the spec: [Group.getGroup({user, groupId, fields})], the
    group store's [getGroup -> Group|absent]. *)
Definition Group_getGroup (db : DB) (user : User) (groupId : option string)
    : option Group :=
  match groupId with
  | None => None
  | Some id =>
      List.find (fun g => String.eqb (g_id g) id && canAccess user g) (groups db)
  end.

(** *** groupMoveTask (lines 115-153) *)

Definition groupMoveTask (db : DB) (user : User) (taskId : string) (to : Z)
    : M (list string) :=
  let task := Task_findOne db (fun t => String.eqb (t_id t) taskId) in
  let* task := or_throw task (NotFound (res_t "taskNotFound" [] None)) in
  let* _ := throw_if (String.eqb (t_type task) "todo" && completed task)
                     (BadRequest (res_t "cantMoveCompletedTodo" [] None)) in
  let group := Group_getGroup db user (tg_id (t_group task)) in
  let* group := or_throw group (NotFound (res_t "groupNotFound" [] None)) in
  let* _ := throw_if (negb (String.eqb (leader group) (u_id user)))
                     (NotAuthorized (res_t "onlyGroupLeaderCanEditTasks" [] None)) in
  let bucket := t_type task +:+ "s" in
  let* order := or_throw (tasksOrder group !! bucket) TypeError in
  let order := moveTask order (t_id task) to in
  let* _ := emit (SaveGroup (set_tasksOrder (<[bucket := order]> (tasksOrder group)) group)) in
  ret order.

(** *** assignTask (lines 166-213) *)

Definition assignTask (db : DB) (user : User) (taskId assignedUserId : string)
    : M Task :=
  let assignedUser := User_findById db assignedUserId in
  let task := Task_findByIdOrAlias db taskId (u_id user) in
  let* task := or_throw task (NotFound (res_t "taskNotFound" [] None)) in
  let* _ := throw_if (negb (from_option truthy false (tg_id (t_group task))))
                     (NotAuthorized (res_t "onlyGroupTasksCanBeAssigned" [] None)) in
  let group := Group_getGroup db user (tg_id (t_group task)) in
  let* group := or_throw group (NotFound (res_t "groupNotFound" [] None)) in
  let* _ := throw_if (canNotEditTasks group user (Some assignedUserId))
                     (NotAuthorized (res_t "onlyGroupLeaderCanEditTasks" [] None)) in
  let* _ :=
    (if String.eqb (u_id user) assignedUserId
     then let message :=
            res_t "userIsClamingTask"
                  [("username", profile_name user); ("task", text task)] None in
          let* _ := emit (SendChat group message) in
          emit (SaveMessage message)
     else ret tt) in
  let* _ := emit (SyncTask group task assignedUser) in
  let* _ := emit (SaveGroup group) in
  ret task.

(** *** unassignTask (lines 226-262) *)

Definition unassignTask (db : DB) (user : User) (taskId assignedUserId : string)
    : M Task :=
  let assignedUser := User_findById db assignedUserId in
  let task := Task_findByIdOrAlias db taskId (u_id user) in
  let* task := or_throw task (NotFound (res_t "taskNotFound" [] None)) in
  let* _ := throw_if (negb (from_option truthy false (tg_id (t_group task))))
                     (NotAuthorized (res_t "onlyGroupTasksCanBeAssigned" [] None)) in
  let group := Group_getGroup db user (tg_id (t_group task)) in
  let* group := or_throw group (NotFound (res_t "groupNotFound" [] None)) in
  let* _ := throw_if (canNotEditTasks group user (Some assignedUserId))
                     (NotAuthorized (res_t "onlyGroupLeaderCanEditTasks" [] None)) in
  let* _ := emit (UnlinkTask group task assignedUser) in
  ret task.

(** The query [{'group.taskId': taskId, userId: assignedUserId}] of
    [approveTask] and [taskNeedsWork]. *)
Definition linkedTaskQuery (taskId assignedUserId : string) (t : Task) : bool :=
  field_is (tg_taskId (t_group t)) taskId && field_is (userId t) assignedUserId.

(** Lines 313-314 and 411-412: the managers' ids, then the leader's. *)
Definition managerIdsOf (group : Group) : list string :=
  Object_keys (managers group) ++ [leader group].

(** Lines 317-325: the direction read from the first fetched manager. *)
Definition taskDirection (task_id : string)
    (firstManagerNotifications : list (option Notification)) : jsval :=
  let firstNotificationIndex :=
    findIndex (findNotification task_id) firstManagerNotifications in
  match at_index firstManagerNotifications firstNotificationIndex with
  | Some (Some n) => from_option JStr JUndefined (n_direction n)
  | _ => JStr "up"
  end.

(** Lines 308-310: the approval is recorded on the fetched task;
    [now] is the value of [new Date()]. *)
Definition markApproved (now : Z) (user : User) (task : Task) : Task :=
  let a := approval (t_group task) in
  set_approval
    (mkApproval (requested a) (requestedDate a) true (Some now) (Some (u_id user)))
    task.

(** Lines 340-350: the two notifications added to the assigned user. *)
Definition notifyApproved (task : Task) (group : Group) (direction : jsval)
    (assignedUser : User) : User :=
  let message := res_t "yourTaskHasBeenApproved" [("taskText", text task)] None in
  let assignedUser :=
    addNotification "GROUP_TASK_APPROVED"
      [("message", JStr message); ("groupId", JStr (g_id group))] assignedUser in
  addNotification "SCORED_TASK"
    [("message", JStr message); ("scoreTask", JTask task); ("direction", direction)]
    assignedUser.

(** *** approveTask (lines 276-358) *)

Definition approveTask (db : DB) (now : Z) (user : User)
    (taskId assignedUserId : string) : M Task :=
  let assignedUser := User_findById db assignedUserId in
  let task := Task_findOne db (linkedTaskQuery taskId assignedUserId) in
  let* task := or_throw task (NotFound (res_t "taskNotFound" [] None)) in
  let group := Group_getGroup db user (tg_id (t_group task)) in
  let* group := or_throw group (NotFound (res_t "groupNotFound" [] None)) in
  let* _ := throw_if (canNotEditTasks group user None)
                     (NotAuthorized (res_t "onlyGroupLeaderCanEditTasks" [] None)) in
  let* _ := throw_if (approved (approval (t_group task)))
                     (NotAuthorized (res_t "canOnlyApproveTaskOnce" [] None)) in
  let task := markApproved now user task in
  let managerIds := managerIdsOf group in
  let managers' := User_find db managerIds in
  let* firstManager := or_throw (head managers') TypeError in
  let direction := taskDirection (t_id task) (notifications firstManager) in
  let* _ := removeOldNotifications (t_id task) managers' in
  let* assignedUser := or_throw assignedUser TypeError in
  let assignedUser := notifyApproved task group direction assignedUser in
  let* _ := emit (SaveTask task) in
  let* _ := emit (SaveUser assignedUser) in
  ret task.

(** Lines 429-430: the request is withdrawn on the fetched task. *)
Definition clearRequest (task : Task) : Task :=
  let a := approval (t_group task) in
  set_approval
    (mkApproval false None (approved a) (dateApproved a) (approvingUser a)) task.

(** Lines 432-451: the notification added to the assigned user, its
    message rendered in the assigned user's language. *)
Definition notifyNeedsWork (user : User) (task : Task) (group : Group)
    (assignedUser : User) : User :=
  let taskText := text task in
  let managerName := profile_name user in
  let message :=
    res_t "taskNeedsWork" [("taskText", taskText); ("managerName", managerName)]
          (Some (preferences_language assignedUser)) in
  addNotification "GROUP_TASK_NEEDS_WORK"
    [("message", JStr message);
     ("task", JObj [("id", JStr (t_id task)); ("text", JStr taskText)]);
     ("group", JObj [("id", JStr (g_id group)); ("name", JStr (g_name group))]);
     ("manager", JObj [("id", JStr (u_id user)); ("name", JStr managerName)])]
    assignedUser.

(** *** taskNeedsWork (lines 372-457) *)

Definition taskNeedsWork (db : DB) (user : User)
    (taskId assignedUserId : string) : M Task :=
  let assignedUser := User_findById db assignedUserId in
  let task := Task_findOne db (linkedTaskQuery taskId assignedUserId) in
  let* task := or_throw task (NotFound (res_t "taskNotFound" [] None)) in
  let group := Group_getGroup db user (tg_id (t_group task)) in
  let* group := or_throw group (NotFound (res_t "groupNotFound" [] None)) in
  let* _ := throw_if (canNotEditTasks group user None)
                     (NotAuthorized (res_t "onlyGroupLeaderCanEditTasks" [] None)) in
  let* _ := throw_if (approved (approval (t_group task)))
                     (NotAuthorized (res_t "canOnlyApproveTaskOnce" [] None)) in
  let* _ := throw_if (negb (requested (approval (t_group task))))
                     (NotAuthorized (res_t "taskApprovalWasNotRequested" [] None)) in
  let managerIds := managerIdsOf group in
  let managers' := User_find db managerIds in
  let* _ := removeOldNotifications (t_id task) managers' in
  let task := clearRequest task in
  let* assignedUser := or_throw assignedUser TypeError in
  let assignedUser := notifyNeedsWork user task group assignedUser in
  let* _ := emit (SaveUser assignedUser) in
  let* _ := emit (SaveTask task) in
  ret task.

(** *** createGroupTasks (lines 38-70) *)

(** [createTasks(req, res, {user, group})] and [getTasks(req, res, {user, group})]
    of libs/taskManager, for the request at hand: the tasks they answer, or
    the error they throw. *)
Variable createTasks : User -> Group -> error + list Task.
Variable getTasks : User -> Group -> error + list Task.

(** An [await] of a collaborator that may throw. *)
Definition await {A : Type} (r : error + A) : M A :=
  match r with
  | inl e => throw e
  | inr a => ret a
  end.

Definition createGroupTasks (db : DB) (user : User) (groupId : string)
    : M (TaskBody * list Tracked) :=
  let group := Group_getGroup db user (Some groupId) in
  let* group := or_throw group (NotFound (res_t "groupNotFound" [] None)) in
  let* _ := throw_if (canNotEditTasks group user None)
                     (NotAuthorized (res_t "onlyGroupLeaderCanEditTasks" [] None)) in
  let* tasks' := await (createTasks user group) in
  let body := if (length tasks' =? 1)%nat
              then from_option OneTask (TaskArray tasks') (head tasks')
              else TaskArray tasks' in
  let tracked :=
    map (fun task => mkTracked "task create" (u_id user) "event" "behavior"
                               (t_type task) (g_id group)) tasks' in
  ret (body, tracked).

(** *** getGroupTasks (lines 82-101) *)

Definition getGroupTasks (db : DB) (user : User) (groupId : string)
    : M (list Task) :=
  let group := Group_getGroup db user (Some groupId) in
  let* group := or_throw group (NotFound (res_t "groupNotFound" [] None)) in
  let* tasks' := await (getTasks user group) in
  ret tasks'.

(** *** getGroupApprovals (lines 469-498) *)

(** The query [{'group.id': groupId, 'group.approval.approved': false,
    'group.approval.requested': true}]. *)
Definition pendingApprovalQuery (groupId : string) (t : Task) : bool :=
  field_is (tg_id (t_group t)) groupId
  && negb (approved (approval (t_group t)))
  && requested (approval (t_group t)).

Definition getGroupApprovals (db : DB) (user : User) (groupId : string)
    : M (list ApprovalRow) :=
  let group := Group_getGroup db user (Some groupId) in
  let* group := or_throw group (NotFound (res_t "groupNotFound" [] None)) in
  let* _ := throw_if (canNotEditTasks group user None)
                     (NotAuthorized (res_t "onlyGroupLeaderCanEditTasks" [] None)) in
  let approvals := map (populate_userId db) (Task_find db (pendingApprovalQuery groupId)) in
  ret approvals.

(** ** Arrays: findIndex, indexing and splice *)

Lemma findIndex_ge {A : Type} (p : A -> bool) (l : list A) : -1 <= findIndex p l.
Proof.
  induction l as [|x l IH]; simpl; [lia|].
  destruct (p x); [lia|].
  destruct (findIndex p l =? -1) eqn:E; lia.
Qed.

Lemma findIndex_none {A : Type} (p : A -> bool) (l : list A) :
  findIndex p l = -1 <-> (forall x, In x l -> p x = false).
Proof.
  induction l as [|x l IH]; simpl.
  - split; [intros _ y []|reflexivity].
  - destruct (p x) eqn:Px.
    + split; [discriminate|]. intros H. rewrite (H x) in Px by auto. discriminate.
    + pose proof (findIndex_ge p l) as Hge.
      destruct (findIndex p l =? -1) eqn:E.
      * apply Z.eqb_eq in E. split; [|reflexivity].
        intros _ y [<-|Hy]; [assumption|]. now apply IH.
      * apply Z.eqb_neq in E. split; [lia|].
        intros H. exfalso. apply E, IH. intros y Hy. apply H; auto.
  Qed.

Lemma findIndex_first {A : Type} (p : A -> bool) (before : list A) x after :
  (forall y, In y before -> p y = false) -> p x = true ->
  findIndex p (before ++ x :: after) = Z.of_nat (length before).
Proof.
  intros Hb Hx. induction before as [|y before IH]; simpl.
  - now rewrite Hx.
  - rewrite (Hb y) by (simpl; auto).
    rewrite IH by (intros z Hz; apply Hb; simpl; auto).
    destruct (Z.of_nat (length before) =? -1) eqn:E; [apply Z.eqb_eq in E|]; lia.
Qed.

Lemma findIndex_split {A : Type} (p : A -> bool) (l : list A) :
  findIndex p l <> -1 ->
  exists before x after,
    l = before ++ x :: after /\ (forall y, In y before -> p y = false) /\ p x = true.
Proof.
  induction l as [|x l IH]; simpl; [congruence|].
  destruct (p x) eqn:Px.
  - intros _. exists [], x, l. repeat split; auto. intros y [].
  - destruct (findIndex p l =? -1) eqn:E; [congruence|].
    apply Z.eqb_neq in E. intros _.
    destruct (IH E) as (before & y & after & -> & Hb & Hy).
    exists (x :: before), y, after. repeat split; auto.
    intros z [<-|Hz]; auto.
Qed.

Lemma splice1_at {A : Type} (before : list A) x after :
  splice1 (Z.of_nat (length before)) (before ++ x :: after) = before ++ after.
Proof.
  unfold splice1.
  destruct (Z.of_nat (length before) <? 0) eqn:E; [apply Z.ltb_lt in E; lia|].
  rewrite length_app. simpl length.
  replace (Z.to_nat (Z.min _ _)) with (length before) by lia.
  rewrite take_app_length.
  change (S (length before)) with (1 + length before)%nat.
  rewrite Nat.add_comm, <- drop_drop, drop_app_length. reflexivity.
Qed.

Lemma at_index_at {A : Type} (before : list A) x after :
  at_index (before ++ x :: after) (Z.of_nat (length before)) = Some x.
Proof.
  unfold at_index.
  destruct (Z.of_nat (length before) <? 0) eqn:E; [apply Z.ltb_lt in E; lia|].
  rewrite Nat2Z.id. clear E.
  induction before as [|y before IH]; simpl; [reflexivity|exact IH].
Qed.

Lemma at_index_findIndex {A : Type} (p : A -> bool) (l : list A) :
  at_index l (findIndex p l) = List.find p l.
Proof.
  induction l as [|x l IH]; simpl; [reflexivity|].
  destruct (p x); [reflexivity|].
  pose proof (findIndex_ge p l) as Hge.
  destruct (findIndex p l =? -1) eqn:E.
  - apply Z.eqb_eq in E. rewrite E in IH. rewrite <- IH. reflexivity.
  - apply Z.eqb_neq in E. rewrite <- IH. unfold at_index.
    destruct (findIndex p l + 1 <? 0) eqn:E1; [apply Z.ltb_lt in E1; lia|].
    destruct (findIndex p l <? 0) eqn:E2; [apply Z.ltb_lt in E2; lia|].
    replace (Z.to_nat (findIndex p l + 1)) with (S (Z.to_nat (findIndex p l))) by lia.
    reflexivity.
Qed.

(** ** The removal loop *)

Lemma removeOldNotifications_run (task_id : string) (managers' : list User) log :
  removeOldNotifications task_id managers' log =
  (inr (map (clearPending task_id) managers'),
   log ++ map SaveUser (map (clearPending task_id)
                            (List.filter (holdsPending task_id) managers'))).
Proof.
  revert log. induction managers' as [|manager rest IH]; intros log.
  - simpl. unfold ret. now rewrite app_nil_r.
  - cbn [removeOldNotifications map List.filter].
    change (negb (findIndex (findNotification task_id) (notifications manager) =? -1))
      with (holdsPending task_id manager).
    unfold clearPending at 1.
    destruct (holdsPending task_id manager) eqn:Hh.
    + unfold bind, emit, ret. rewrite IH. cbn [map].
      assert (Hc : clearPending task_id manager =
                   set_notifications
                     (splice1 (findIndex (findNotification task_id) (notifications manager))
                              (notifications manager)) manager)
        by (unfold clearPending; now rewrite Hh).
      rewrite Hc. now rewrite <- app_assoc.
    + unfold bind, ret. rewrite IH. reflexivity.
Qed.

Lemma clearPending_none (task_id : string) (manager : User) :
  (forall n, In n (notifications manager) -> findNotification task_id n = false) ->
  holdsPending task_id manager = false /\ clearPending task_id manager = manager.
Proof.
  intros H. apply findIndex_none in H.
  unfold clearPending, holdsPending. rewrite H. simpl. auto.
Qed.

Lemma clearPending_first (task_id : string) (manager : User) before n after :
  notifications manager = before ++ n :: after ->
  (forall x, In x before -> findNotification task_id x = false) ->
  findNotification task_id n = true ->
  holdsPending task_id manager = true /\
  clearPending task_id manager = set_notifications (before ++ after) manager.
Proof.
  intros Hl Hb Hn. unfold clearPending, holdsPending. rewrite Hl.
  rewrite (findIndex_first _ before n after Hb Hn), splice1_at.
  destruct (Z.of_nat (length before) =? -1) eqn:E; [apply Z.eqb_eq in E; lia|].
  simpl. auto.
Qed.

Lemma cleared_scan (task_id : string) (managers' : list User) :
  cleared task_id managers'
          (map (clearPending task_id) managers')
          (map SaveUser (map (clearPending task_id)
                             (List.filter (holdsPending task_id) managers'))).
Proof.
  induction managers' as [|manager rest IH]; simpl; [constructor|].
  destruct (Z.eq_dec (findIndex (findNotification task_id) (notifications manager)) (-1))
    as [E|E].
  - pose proof (proj1 (findIndex_none _ _) E) as Hnone.
    destruct (clearPending_none task_id manager Hnone) as [Hh Hc].
    rewrite Hh, Hc. now constructor.
  - destruct (findIndex_split _ _ E) as (before & n & after & Hl & Hb & Hn).
    destruct (clearPending_first task_id manager before n after Hl Hb Hn) as [Hh Hc].
    rewrite Hh. cbn [map]. rewrite !Hc. now apply cleared_removed with (n := n).
Qed.

(** ** Running the handlers *)

Ltac run_handler :=
  unfold run, bind, or_throw, throw_if, ret, throw, emit.

Lemma approveTask_ok db now user taskId assignedUserId task group firstManager rest assignee :
  Task_findOne db (linkedTaskQuery taskId assignedUserId) = Some task ->
  Group_getGroup db user (tg_id (t_group task)) = Some group ->
  canNotEditTasks group user None = false ->
  approved (approval (t_group task)) = false ->
  User_find db (managerIdsOf group) = firstManager :: rest ->
  User_findById db assignedUserId = Some assignee ->
  run (approveTask db now user taskId assignedUserId) =
  (inr (markApproved now user task),
   map SaveUser (map (clearPending (t_id task))
                     (List.filter (holdsPending (t_id task)) (firstManager :: rest)))
   ++ [SaveTask (markApproved now user task);
       SaveUser (notifyApproved (markApproved now user task) group
                   (taskDirection (t_id task) (notifications firstManager))
                   assignee)]).
Proof.
  intros Htask Hgroup Hedit Happroved Hmanagers Hassignee.
  unfold approveTask. run_handler.
  rewrite Htask, Hgroup, Hedit, Happroved, Hmanagers, Hassignee. cbn [head].
  rewrite removeOldNotifications_run. cbn [app].
  change (t_id (markApproved now user task)) with (t_id task).
  now rewrite <- app_assoc.
Qed.

Lemma approveTask_inv db now user taskId assignedUserId task' log :
  run (approveTask db now user taskId assignedUserId) = (inr task', log) ->
  exists task group firstManager rest assignee,
    Task_findOne db (linkedTaskQuery taskId assignedUserId) = Some task /\
    Group_getGroup db user (tg_id (t_group task)) = Some group /\
    canNotEditTasks group user None = false /\
    approved (approval (t_group task)) = false /\
    User_find db (managerIdsOf group) = firstManager :: rest /\
    User_findById db assignedUserId = Some assignee.
Proof.
  unfold approveTask. run_handler.
  destruct (Task_findOne db _) as [task|] eqn:Htask; [|discriminate].
  destruct (Group_getGroup db user _) as [group|] eqn:Hgroup; [|discriminate].
  destruct (canNotEditTasks group user None) eqn:Hedit; [discriminate|].
  destruct (approved (approval (t_group task))) eqn:Happroved; [discriminate|].
  destruct (User_find db (managerIdsOf group)) as [|firstManager rest] eqn:Hm;
    [discriminate|]. cbn [head].
  rewrite removeOldNotifications_run.
  destruct (User_findById db assignedUserId) as [assignee|] eqn:Hassignee;
    [|discriminate].
  intros _. exists task, group, firstManager, rest, assignee. auto 10.
Qed.

Lemma taskNeedsWork_ok db user taskId assignedUserId task group assignee :
  Task_findOne db (linkedTaskQuery taskId assignedUserId) = Some task ->
  Group_getGroup db user (tg_id (t_group task)) = Some group ->
  canNotEditTasks group user None = false ->
  approved (approval (t_group task)) = false ->
  requested (approval (t_group task)) = true ->
  User_findById db assignedUserId = Some assignee ->
  run (taskNeedsWork db user taskId assignedUserId) =
  (inr (clearRequest task),
   map SaveUser (map (clearPending (t_id task))
                     (List.filter (holdsPending (t_id task))
                                  (User_find db (managerIdsOf group))))
   ++ [SaveUser (notifyNeedsWork user (clearRequest task) group assignee);
       SaveTask (clearRequest task)]).
Proof.
  intros Htask Hgroup Hedit Happroved Hrequested Hassignee.
  unfold taskNeedsWork. run_handler.
  rewrite Htask, Hgroup, Hedit, Happroved, Hrequested, Hassignee. cbn [negb].
  rewrite removeOldNotifications_run. cbn [app].
  now rewrite <- app_assoc.
Qed.

Lemma taskNeedsWork_inv db user taskId assignedUserId task' log :
  run (taskNeedsWork db user taskId assignedUserId) = (inr task', log) ->
  exists task group assignee,
    Task_findOne db (linkedTaskQuery taskId assignedUserId) = Some task /\
    Group_getGroup db user (tg_id (t_group task)) = Some group /\
    canNotEditTasks group user None = false /\
    approved (approval (t_group task)) = false /\
    requested (approval (t_group task)) = true /\
    User_findById db assignedUserId = Some assignee.
Proof.
  unfold taskNeedsWork. run_handler.
  destruct (Task_findOne db _) as [task|] eqn:Htask; [|discriminate].
  destruct (Group_getGroup db user _) as [group|] eqn:Hgroup; [|discriminate].
  destruct (canNotEditTasks group user None) eqn:Hedit; [discriminate|].
  destruct (approved (approval (t_group task))) eqn:Happroved; [discriminate|].
  destruct (requested (approval (t_group task))) eqn:Hrequested; [|discriminate].
  cbn [negb]. rewrite removeOldNotifications_run.
  destruct (User_findById db assignedUserId) as [assignee|] eqn:Hassignee;
    [|discriminate].
  intros _. exists task, group, assignee. auto 10.
Qed.

(** ** The stored task after a save *)

Lemma Task_findOne_saved db (query : Task -> bool) task task' :
  Task_findOne db query = Some task ->
  t_id task' = t_id task ->
  query task' = true ->
  Task_findOne (Task_save task' db) query = Some task'.
Proof.
  unfold Task_findOne, Task_save. cbn [tasks].
  intros Hfind Hid Hq. induction (tasks db) as [|x l IH]; [discriminate|].
  cbn [map List.find] in *.
  destruct (query x) eqn:Hx.
  - injection Hfind as ->. rewrite Hid, String.eqb_refl. now rewrite Hq.
  - destruct (String.eqb (t_id x) (t_id task')); [now rewrite Hq|].
    rewrite Hx. now apply IH.
Qed.

(** ** The direction lookup *)

Lemma taskDirection_find (task_id : string) (l : list (option Notification)) :
  taskDirection task_id l =
  match List.find (findNotification task_id) l with
  | Some (Some n) => from_option JStr JUndefined (n_direction n)
  | _ => JStr "up"
  end.
Proof. unfold taskDirection. now rewrite at_index_findIndex. Qed.

Lemma find_first {A : Type} (p : A -> bool) (before : list A) x after :
  (forall y, In y before -> p y = false) -> p x = true ->
  List.find p (before ++ x :: after) = Some x.
Proof.
  intros Hb Hx. induction before as [|y before IH]; simpl.
  - now rewrite Hx.
  - rewrite (Hb y) by (simpl; auto). apply IH. intros z Hz. apply Hb. simpl; auto.
Qed.

Lemma find_absent {A : Type} (p : A -> bool) (l : list A) :
  (forall y, In y l -> p y = false) -> List.find p l = None.
Proof.
  intros H. induction l as [|y l IH]; simpl; [reflexivity|].
  rewrite (H y) by (simpl; auto). apply IH. intros z Hz. apply H. simpl; auto.
Qed.

Lemma taskDirection_none (task_id : string) (l : list (option Notification)) :
  (forall n, In n l -> findNotification task_id n = false) ->
  taskDirection task_id l = JStr "up".
Proof. intros H. now rewrite taskDirection_find, find_absent. Qed.

Lemma taskDirection_first (task_id : string) before n after :
  (forall x, In x before -> findNotification task_id x = false) ->
  findNotification task_id (Some n) = true ->
  taskDirection task_id (before ++ Some n :: after) =
  from_option JStr JUndefined (n_direction n).
Proof. intros Hb Hn. now rewrite taskDirection_find, find_first. Qed.

(** ** Approving twice *)

(** C1.  A first approve by an actor who may edit, on a linked task not yet
    approved (the assigned user and at least one of the leader and managers
    being in the user store), succeeds: the task it answers and saves is the
    fetched one marked approved, dated [now] and signed by the actor.  Any later approve of the same linked task
    by an actor who may edit, on a store holding the task as saved, throws
    NotAuthorized with the can-only-approve-once message and starts no save,
    so the stored [approved], [dateApproved] and [approvingUser] stay as the
    first call left them. *)
Theorem approveTask_twice db now user taskId assignedUserId
    task group firstManager rest assignee :
  Task_findOne db (linkedTaskQuery taskId assignedUserId) = Some task ->
  Group_getGroup db user (tg_id (t_group task)) = Some group ->
  canNotEditTasks group user None = false ->
  approved (approval (t_group task)) = false ->
  User_find db (managerIdsOf group) = firstManager :: rest ->
  User_findById db assignedUserId = Some assignee ->
  let task' := markApproved now user task in
  exists log,
    run (approveTask db now user taskId assignedUserId) = (inr task', log) /\
    In (SaveTask task') log /\
    approved (approval (t_group task')) = true /\
    dateApproved (approval (t_group task')) = Some now /\
    approvingUser (approval (t_group task')) = Some (u_id user) /\
    forall db2 now2 user2 group2,
      tasks db2 = tasks (Task_save task' db) ->
      Group_getGroup db2 user2 (tg_id (t_group task')) = Some group2 ->
      canNotEditTasks group2 user2 None = false ->
      run (approveTask db2 now2 user2 taskId assignedUserId) =
        (inl (NotAuthorized (res_t "canOnlyApproveTaskOnce" [] None)), []) /\
      Task_findOne db2 (linkedTaskQuery taskId assignedUserId) = Some task'.
Proof.
  intros Htask Hgroup Hedit Happroved Hmanagers Hassignee task'. subst task'.
  eexists. split.
  { eapply approveTask_ok; eassumption. }
  split; [apply in_or_app; right; simpl; auto|].
  do 3 (split; [reflexivity|]).
  intros db2 now2 user2 group2 Htasks Hgroup2 Hedit2.
  assert (Hstored : Task_findOne db2 (linkedTaskQuery taskId assignedUserId)
                    = Some (markApproved now user task)).
  { unfold Task_findOne. rewrite Htasks.
    apply (Task_findOne_saved db _ task); [assumption|reflexivity|].
    apply find_some in Htask. apply Htask. }
  split; [|exact Hstored].
  unfold approveTask. run_handler. rewrite Hstored, Hgroup2, Hedit2. reflexivity.
Qed.

(** ** Needs-work on a task without a pending request *)

(** C2 (amended).  A needs-work call by an actor who may edit, on a resolved
    linked task whose [requested] is false, throws NotAuthorized and starts no
    save: with the approval-was-not-requested message when [approved] is not
    true, and with the can-only-approve-once message when [approved] is
    true, the check on [approved] coming first. *)
Theorem taskNeedsWork_not_requested db user taskId assignedUserId task group :
  Task_findOne db (linkedTaskQuery taskId assignedUserId) = Some task ->
  Group_getGroup db user (tg_id (t_group task)) = Some group ->
  canNotEditTasks group user None = false ->
  requested (approval (t_group task)) = false ->
  run (taskNeedsWork db user taskId assignedUserId) =
  (inl (NotAuthorized
          (res_t (if approved (approval (t_group task))
                  then "canOnlyApproveTaskOnce"
                  else "taskApprovalWasNotRequested") [] None)),
   []).
Proof.
  intros Htask Hgroup Hedit Hrequested.
  unfold taskNeedsWork. run_handler.
  rewrite Htask, Hgroup, Hedit, Hrequested.
  now destruct (approved (approval (t_group task))).
Qed.

(** ** The direction forwarded by approve *)

(** C3 (amended).  After a successful approve the last save is the assigned
    user's, whose last notification is the SCORED_TASK one; the direction it
    carries is read from the first fetched user of the leader-plus-managers
    set only: the [direction] of that user's first pending GROUP_TASK_APPROVAL
    notification for the task (undefined when the notification has none), and
    ['up'] when that user holds no such notification. *)
Theorem approveTask_direction db now user taskId assignedUserId task' log :
  run (approveTask db now user taskId assignedUserId) = (inr task', log) ->
  exists task group firstManager rest assignee saves direction,
    Task_findOne db (linkedTaskQuery taskId assignedUserId) = Some task /\
    Group_getGroup db user (tg_id (t_group task)) = Some group /\
    User_find db (managerIdsOf group) = firstManager :: rest /\
    User_findById db assignedUserId = Some assignee /\
    log = saves ++ [SaveTask task';
                    SaveUser (notifyApproved task' group direction assignee)] /\
    last (notifications (notifyApproved task' group direction assignee)) =
      Some (Some (mkNotification "SCORED_TASK"
              (Some [("message",
                      JStr (res_t "yourTaskHasBeenApproved"
                                  [("taskText", text task)] None));
                     ("scoreTask", JTask task');
                     ("direction", direction)])
              None)) /\
    ((forall n, In n (notifications firstManager) ->
                findNotification (t_id task) n = false) ->
     direction = JStr "up") /\
    (forall before n after,
       notifications firstManager = before ++ Some n :: after ->
       (forall x, In x before -> findNotification (t_id task) x = false) ->
       findNotification (t_id task) (Some n) = true ->
       direction = from_option JStr JUndefined (n_direction n)).
Proof.
  intros Hrun.
  destruct (approveTask_inv _ _ _ _ _ _ _ Hrun)
    as (task & group & firstManager & rest & assignee
        & Htask & Hgroup & Hedit & Happroved & Hmanagers & Hassignee).
  rewrite (approveTask_ok _ now _ _ _ _ _ _ _ _
             Htask Hgroup Hedit Happroved Hmanagers Hassignee) in Hrun.
  injection Hrun as <- <-.
  exists task, group, firstManager, rest, assignee. eexists _, _.
  do 4 (split; [assumption|]).
  split; [reflexivity|].
  split; [unfold notifyApproved, addNotification; cbn; now rewrite last_snoc|].
  split.
  - apply taskDirection_none.
  - intros before n after Hl Hb Hn. rewrite Hl. now apply taskDirection_first.
Qed.

(** ** The frame of the removal loop *)



(** ** Who may edit *)


(** ** Assigning a task that belongs to no group *)

(** C6 (amended).  An assign call whose resolved task has no [group.id]
    throws NotAuthorized with the only-group-tasks-can-be-assigned message
    and starts nothing, whoever the actor is.  When [group.id] is present,
    the group resolves and the actor may edit, the call succeeds: it posts
    the claim message when the actor assigns to themself, then syncs the
    task to the assigned user and saves the group. *)
Theorem assignTask_needs_group_task db user taskId assignedUserId task :
  Task_findByIdOrAlias db taskId (u_id user) = Some task ->
  (tg_id (t_group task) = None ->
   run (assignTask db user taskId assignedUserId) =
   (inl (NotAuthorized (res_t "onlyGroupTasksCanBeAssigned" [] None)), []))
  /\
  (forall groupId group,
     tg_id (t_group task) = Some groupId -> groupId <> "" ->
     Group_getGroup db user (Some groupId) = Some group ->
     canEdit group user (Some assignedUserId) = true ->
     let message :=
       res_t "userIsClamingTask"
             [("username", profile_name user); ("task", text task)] None in
     run (assignTask db user taskId assignedUserId) =
     (inr task,
      (if String.eqb (u_id user) assignedUserId
       then [SendChat group message; SaveMessage message] else [])
      ++ [SyncTask group task (User_findById db assignedUserId); SaveGroup group])).
Proof.
  intros Htask. split.
  - intros Hnone. unfold assignTask. run_handler.
    rewrite Htask, Hnone. reflexivity.
  - intros groupId group Hid Hne Hgroup Hedit message.
    unfold canEdit in Hedit. apply negb_true_iff in Hedit.
    unfold assignTask. run_handler.
    rewrite Htask, Hid. cbn [from_option]. unfold truthy.
    destruct (String.eqb_spec groupId "") as [?|_]; [contradiction|]. cbn [negb].
    rewrite Hgroup, Hedit.
    now destruct (String.eqb (u_id user) assignedUserId).
Qed.

(** ** Moving a group task *)

Lemma moveTask_In (order : list string) (taskId : string) (to : Z) :
  In taskId (moveTask order taskId to).
Proof.
  unfold moveTask, splice_insert.
  destruct (to =? -1); apply in_or_app; right; simpl; auto.
Qed.

(** C8 (amended).  On a resolved task of a resolved group: a completed todo
    is refused to everyone, the leader included, with BadRequest, and nothing
    is saved; for any other task, a move call by an actor who is not the
    group's leader, manager or not, throws NotAuthorized and starts no save,
    so the group's [tasksOrder] is not written; the leader's call, when the
    bucket of the task's type exists, answers the moved order, which holds
    the task's id, and saves the group with that bucket holding the moved
    order and everything else as fetched. *)
Theorem groupMoveTask_leader_only db user taskId to task group :
  Task_findOne db (fun t => String.eqb (t_id t) taskId) = Some task ->
  Group_getGroup db user (tg_id (t_group task)) = Some group ->
  (String.eqb (t_type task) "todo" && completed task = true ->
   run (groupMoveTask db user taskId to) =
   (inl (BadRequest (res_t "cantMoveCompletedTodo" [] None)), []))
  /\
  (String.eqb (t_type task) "todo" && completed task = false ->
   leader group <> u_id user ->
   run (groupMoveTask db user taskId to) =
   (inl (NotAuthorized (res_t "onlyGroupLeaderCanEditTasks" [] None)), []))
  /\
  (String.eqb (t_type task) "todo" && completed task = false ->
   leader group = u_id user ->
   forall order,
     tasksOrder group !! (t_type task +:+ "s") = Some order ->
     exists group',
       run (groupMoveTask db user taskId to) =
         (inr (moveTask order (t_id task) to), [SaveGroup group']) /\
       In (t_id task) (moveTask order (t_id task) to) /\
       tasksOrder group' !! (t_type task +:+ "s") =
         Some (moveTask order (t_id task) to) /\
       (forall bucket, bucket <> t_type task +:+ "s" ->
          tasksOrder group' !! bucket = tasksOrder group !! bucket) /\
       (g_id group', leader group', managers group', g_name group')
         = (g_id group, leader group, managers group, g_name group)).
Proof.
  intros Htask Hgroup. split; [|split].
  - intros Htodo. unfold groupMoveTask. run_handler. now rewrite Htask, Htodo.
  - intros Htodo Hleader. apply String.eqb_neq in Hleader.
    unfold groupMoveTask. run_handler.
    now rewrite Htask, Htodo, Hgroup, Hleader.
  - intros Htodo Hleader order Horder. apply String.eqb_eq in Hleader.
    eexists. split.
    { unfold groupMoveTask. run_handler.
      rewrite Htask, Htodo, Hgroup, Hleader, Horder. reflexivity. }
    split; [apply moveTask_In|].
    cbn [tasksOrder set_tasksOrder].
    split; [apply lookup_insert_eq|].
    split; [intros bucket Hbucket; now apply lookup_insert_ne|reflexivity].
Qed.

(** ** What needs-work leaves behind *)

(** C9.  After a successful needs-work call the task, saved last, has
    [requested] false and no [requestedDate]; the assigned user is saved with
    the stored list followed by exactly one more notification: a
    GROUP_TASK_NEEDS_WORK whose message is rendered in the assigned user's
    own language, and which carries the task's id and text, the group's id
    and name and the acting manager's id and name. *)
Theorem taskNeedsWork_effect db user taskId assignedUserId task' log :
  run (taskNeedsWork db user taskId assignedUserId) = (inr task', log) ->
  exists task group assignee assignee' saves,
    Task_findOne db (linkedTaskQuery taskId assignedUserId) = Some task /\
    Group_getGroup db user (tg_id (t_group task)) = Some group /\
    User_findById db assignedUserId = Some assignee /\
    requested (approval (t_group task')) = false /\
    requestedDate (approval (t_group task')) = None /\
    t_id task' = t_id task /\ text task' = text task /\
    run (removeOldNotifications (t_id task) (User_find db (managerIdsOf group))) =
      (inr (map (clearPending (t_id task)) (User_find db (managerIdsOf group))),
       saves) /\
    log = saves ++ [SaveUser assignee'; SaveTask task'] /\
    (u_id assignee', profile_name assignee', preferences_language assignee')
      = (u_id assignee, profile_name assignee, preferences_language assignee) /\
    notifications assignee' =
      notifications assignee ++
      [Some (mkNotification "GROUP_TASK_NEEDS_WORK"
         (Some [("message",
                 JStr (res_t "taskNeedsWork"
                         [("taskText", text task);
                          ("managerName", profile_name user)]
                         (Some (preferences_language assignee))));
                ("task", JObj [("id", JStr (t_id task));
                               ("text", JStr (text task))]);
                ("group", JObj [("id", JStr (g_id group));
                                ("name", JStr (g_name group))]);
                ("manager", JObj [("id", JStr (u_id user));
                                  ("name", JStr (profile_name user))])])
         None)].
Proof.
  intros Hrun.
  destruct (taskNeedsWork_inv _ _ _ _ _ _ Hrun)
    as (task & group & assignee
        & Htask & Hgroup & Hedit & Happroved & Hrequested & Hassignee).
  rewrite (taskNeedsWork_ok _ _ _ _ _ _ _
             Htask Hgroup Hedit Happroved Hrequested Hassignee) in Hrun.
  injection Hrun as <- <-.
  exists task, group, assignee. eexists _, _.
  do 3 (split; [assumption|]).
  do 4 (split; [reflexivity|]).
  split; [unfold run; now rewrite removeOldNotifications_run|].
  split; [reflexivity|].
  split; reflexivity.
Qed.

(** ** Approving for a user who does not exist *)

(** C7.  What approve does when the assigned user id resolves to no user
    while the linked task, the group and the fetched managers are there and
    the actor may edit: it throws the TypeError of [assignedUser.addNotification]
    on an absent user, not NotFound, and by then the managers' saves of the
    removal loop have been started. *)
Theorem approveTask_absent_user db now user taskId assignedUserId
    task group firstManager rest :
  User_findById db assignedUserId = None ->
  Task_findOne db (linkedTaskQuery taskId assignedUserId) = Some task ->
  Group_getGroup db user (tg_id (t_group task)) = Some group ->
  canNotEditTasks group user None = false ->
  approved (approval (t_group task)) = false ->
  User_find db (managerIdsOf group) = firstManager :: rest ->
  run (approveTask db now user taskId assignedUserId) =
  (inl TypeError,
   map SaveUser (map (clearPending (t_id task))
                     (List.filter (holdsPending (t_id task)) (firstManager :: rest)))).
Proof.
  intros Hassignee Htask Hgroup Hedit Happroved Hmanagers.
  unfold approveTask. run_handler.
  rewrite Htask, Hgroup, Hedit, Happroved, Hmanagers, Hassignee. cbn [head].
  rewrite removeOldNotifications_run. reflexivity.
Qed.

(** ** Malformed notification entries *)

Lemma findNotification_true (task_id : string) (x : option Notification) :
  findNotification task_id x = true ->
  exists n data,
    x = Some n /\ n_data n = Some data /\
    prop "taskId" data = Some (JStr task_id) /\
    n_type n = "GROUP_TASK_APPROVAL".
Proof.
  unfold findNotification.
  destruct x as [n|]; [|discriminate].
  destruct (n_data n) as [data|] eqn:Hdata; [|discriminate].
  destruct (prop "taskId" data) as [[|s| |]|] eqn:Hprop; try discriminate.
  intros H. apply andb_true_iff in H as [Hs Ht].
  apply String.eqb_eq in Hs, Ht. subst s. exists n, data. auto.
Qed.

Lemma malformed_no_match (task_id : string) (x : option Notification) :
  malformed x = true -> findNotification task_id x = false.
Proof.
  destruct x as [n|]; [|reflexivity]. simpl.
  destruct (n_data n); [discriminate|reflexivity].
Qed.

Lemma cleared_keeps_malformed (task_id : string) managers' after saves :
  cleared task_id managers' after saves ->
  Forall2 (fun manager manager' =>
             List.filter malformed (notifications manager') =
             List.filter malformed (notifications manager)
             /\ (notifications manager' = notifications manager
                 \/ exists before n data rest,
                      notifications manager = before ++ Some n :: rest /\
                      notifications manager' = before ++ rest /\
                      n_data n = Some data /\
                      prop "taskId" data = Some (JStr task_id) /\
                      n_type n = "GROUP_TASK_APPROVAL"))
          managers' after.
Proof.
  induction 1 as [|manager rest rest' saves Hnone _ IH
                  |manager before n after' rest rest' saves Hl Hb Hn _ IH].
  - constructor.
  - constructor; auto.
  - constructor; [|exact IH]. cbn [notifications set_notifications]. rewrite Hl.
    destruct (findNotification_true _ _ Hn) as (n' & data & -> & Hdata & Htask & Htype).
    split.
    + rewrite !List.filter_app. cbn [List.filter malformed]. now rewrite Hdata.
    + right. exists before, n', data, after'. auto.
Qed.

Lemma find_filter_implied {A : Type} (p q : A -> bool) (l : list A) :
  (forall x, p x = true -> q x = true) ->
  List.find p (List.filter q l) = List.find p l.
Proof.
  intros Hpq. induction l as [|x l IH]; simpl; [reflexivity|].
  destruct (p x) eqn:Px.
  - rewrite (Hpq x Px). simpl. now rewrite Px.
  - destruct (q x); simpl; [now rewrite Px|exact IH].
Qed.

(** C10.  The scans do not stumble on malformed entries.  A [null],
    [undefined] or data-less entry never matches; an entry matches only if
    it has a [data] whose [taskId] is the task's id and its type is
    GROUP_TASK_APPROVAL.  The removal loop of approve and needs-work always
    runs to its end without throwing, keeps every malformed entry of every
    list in place, and removes from a list at most one entry, a matching one.
    The direction lookup of approve reads the same value as on the list
    without its malformed entries.  A TypeError of either handler comes from
    an empty fetched set or an absent assigned user, never from a
    notification entry. *)
Theorem scans_total_on_malformed (task_id : string) (managers' : list User) :
  (forall x, malformed x = true -> findNotification task_id x = false) /\
  (forall x, findNotification task_id x = true ->
     exists n data,
       x = Some n /\ n_data n = Some data /\
       prop "taskId" data = Some (JStr task_id) /\
       n_type n = "GROUP_TASK_APPROVAL") /\
  (exists after saves,
     run (removeOldNotifications task_id managers') = (inr after, saves) /\
     Forall2 (fun manager manager' =>
                List.filter malformed (notifications manager') =
                List.filter malformed (notifications manager)
                /\ (notifications manager' = notifications manager
                    \/ exists before n data rest,
                         notifications manager = before ++ Some n :: rest /\
                         notifications manager' = before ++ rest /\
                         n_data n = Some data /\
                         prop "taskId" data = Some (JStr task_id) /\
                         n_type n = "GROUP_TASK_APPROVAL"))
             managers' after) /\
  (forall l,
     taskDirection task_id l =
     taskDirection task_id (List.filter (fun x => negb (malformed x)) l)) /\
  (forall db now user taskId assignedUserId log,
     run (approveTask db now user taskId assignedUserId) = (inl TypeError, log) ->
     (exists task group,
        Task_findOne db (linkedTaskQuery taskId assignedUserId) = Some task /\
        Group_getGroup db user (tg_id (t_group task)) = Some group /\
        User_find db (managerIdsOf group) = [])
     \/ User_findById db assignedUserId = None) /\
  (forall db user taskId assignedUserId log,
     run (taskNeedsWork db user taskId assignedUserId) = (inl TypeError, log) ->
     User_findById db assignedUserId = None).
Proof.
  split; [apply malformed_no_match|].
  split; [apply findNotification_true|].
  split.
  { eexists _, _. split.
    - unfold run. apply removeOldNotifications_run.
    - eapply cleared_keeps_malformed, cleared_scan. }
  split.
  { intros l. rewrite !taskDirection_find, find_filter_implied; [reflexivity|].
    intros x Hx. destruct (malformed x) eqn:Hm; [|reflexivity].
    rewrite (malformed_no_match _ _ Hm) in Hx. discriminate. }
  split.
  - intros db now user taskId assignedUserId log.
    unfold approveTask. run_handler.
    destruct (Task_findOne db _) as [task|] eqn:Htask; [|discriminate].
    destruct (Group_getGroup db user _) as [group|] eqn:Hgroup; [|discriminate].
    destruct (canNotEditTasks group user None); [discriminate|].
    destruct (approved (approval (t_group task))); [discriminate|].
    destruct (User_find db (managerIdsOf group)) as [|firstManager rest] eqn:Hm.
    + intros _. left. eauto.
    + cbn [head]. rewrite removeOldNotifications_run.
      destruct (User_findById db assignedUserId); [discriminate|auto].
  - intros db user taskId assignedUserId log.
    unfold taskNeedsWork. run_handler.
    destruct (Task_findOne db _) as [task|]; [|discriminate].
    destruct (Group_getGroup db user _) as [group|]; [|discriminate].
    destruct (canNotEditTasks group user None); [discriminate|].
    destruct (approved (approval (t_group task))); [discriminate|].
    destruct (requested (approval (t_group task))); [|discriminate].
    cbn [negb]. rewrite removeOldNotifications_run.
    destruct (User_findById db assignedUserId); [discriminate|auto].
Qed.

(** ** Further properties of the handlers *)

(** *** Failing calls *)

(** X1.  The guards come first: in [approveTask], [taskNeedsWork],
    [assignTask], [unassignTask] and [groupMoveTask] every NotFound,
    NotAuthorized and BadRequest of the handler's own [throw] statements is
    thrown before the first collaborator call is started, so that a call
    answered by one of them has started none. *)
Theorem thrown_errors_start_nothing db now user taskId assignedUserId to e log :
  e <> TypeError ->
  (run (approveTask db now user taskId assignedUserId) = (inl e, log) -> log = []) /\
  (run (taskNeedsWork db user taskId assignedUserId) = (inl e, log) -> log = []) /\
  (run (assignTask db user taskId assignedUserId) = (inl e, log) -> log = []) /\
  (run (unassignTask db user taskId assignedUserId) = (inl e, log) -> log = []) /\
  (run (groupMoveTask db user taskId to) = (inl e, log) -> log = []).
Proof.
  intros He. repeat split.
  - unfold approveTask. run_handler.
    destruct (Task_findOne db _) as [task|]; [|congruence].
    destruct (Group_getGroup db user _) as [group|]; [|congruence].
    destruct (canNotEditTasks group user None); [congruence|].
    destruct (approved (approval (t_group task))); [congruence|].
    destruct (User_find db (managerIdsOf group)) as [|firstManager rest];
      [cbn; congruence|]. cbn [head].
    rewrite removeOldNotifications_run.
    destruct (User_findById db assignedUserId); [discriminate|congruence].
  - unfold taskNeedsWork. run_handler.
    destruct (Task_findOne db _) as [task|]; [|congruence].
    destruct (Group_getGroup db user _) as [group|]; [|congruence].
    destruct (canNotEditTasks group user None); [congruence|].
    destruct (approved (approval (t_group task))); [congruence|].
    destruct (requested (approval (t_group task))); [|cbn; congruence].
    cbn [negb]. rewrite removeOldNotifications_run.
    destruct (User_findById db assignedUserId); [discriminate|congruence].
  - unfold assignTask. run_handler.
    destruct (Task_findByIdOrAlias db _ _) as [task|]; [|congruence].
    destruct (negb (from_option truthy false (tg_id (t_group task)))); [congruence|].
    destruct (Group_getGroup db user _) as [group|]; [|congruence].
    destruct (canNotEditTasks group user (Some assignedUserId)); [congruence|].
    destruct (String.eqb (u_id user) assignedUserId); discriminate.
  - unfold unassignTask. run_handler.
    destruct (Task_findByIdOrAlias db _ _) as [task|]; [|congruence].
    destruct (negb (from_option truthy false (tg_id (t_group task)))); [congruence|].
    destruct (Group_getGroup db user _) as [group|]; [|congruence].
    destruct (canNotEditTasks group user (Some assignedUserId));
      [congruence|discriminate].
  - unfold groupMoveTask. run_handler.
    destruct (Task_findOne db _) as [task|]; [|congruence].
    destruct (String.eqb (t_type task) "todo" && completed task); [congruence|].
    destruct (Group_getGroup db user _) as [group|]; [|congruence].
    destruct (negb (String.eqb (leader group) (u_id user))); [congruence|].
    destruct (tasksOrder group !! _); [discriminate|congruence].
Qed.

(** X2.  [approveTask] and [taskNeedsWork] run the same first checks: when
    approve throws a NotFound or a NotAuthorized, needs-work on the same
    store and arguments throws the same error. *)
Theorem approve_errors_are_needsWork_errors db now user taskId assignedUserId e log :
  run (approveTask db now user taskId assignedUserId) = (inl e, log) ->
  e <> TypeError ->
  run (taskNeedsWork db user taskId assignedUserId) = (inl e, []).
Proof.
  unfold approveTask, taskNeedsWork. run_handler.
  destruct (Task_findOne db _) as [task|]; [|congruence].
  destruct (Group_getGroup db user _) as [group|]; [|congruence].
  destruct (canNotEditTasks group user None); [congruence|].
  destruct (approved (approval (t_group task))); [congruence|].
  destruct (User_find db (managerIdsOf group)) as [|firstManager rest];
    [cbn; congruence|]. cbn [head].
  rewrite removeOldNotifications_run.
  destruct (User_findById db assignedUserId); [discriminate|congruence].
Qed.

(** X3.  Being the assigned user gives no standing to approve, to send
    back, to list approvals or to create: for an actor who is neither the
    leader nor listed with [true] in the managers, and whose id names no
    member of [Object.prototype], on a resolved group (and linked task), all
    four handlers throw NotAuthorized with the only-leader message and start
    nothing, whoever the task is assigned to. *)
Theorem only_leader_and_managers_decide db now user taskId assignedUserId task group :
  leader group <> u_id user ->
  managers group !! u_id user <> Some true ->
  inherited (u_id user) = false ->
  let denied := NotAuthorized (res_t "onlyGroupLeaderCanEditTasks" [] None) in
  (Task_findOne db (linkedTaskQuery taskId assignedUserId) = Some task ->
   Group_getGroup db user (tg_id (t_group task)) = Some group ->
   run (approveTask db now user taskId assignedUserId) = (inl denied, []) /\
   run (taskNeedsWork db user taskId assignedUserId) = (inl denied, [])) /\
  (Group_getGroup db user (Some (g_id group)) = Some group ->
   run (getGroupApprovals db user (g_id group)) = (inl denied, []) /\
   run (createGroupTasks db user (g_id group)) = (inl denied, [])).
Proof.
  intros Hleader Hmanager Hinherited denied.
  assert (Hedit : canNotEditTasks group user None = true).
  { unfold canNotEditTasks, truthy_at. apply String.eqb_neq in Hleader.
    rewrite Hleader, Hinherited.
    destruct (managers group !! u_id user) as [[|]|]; [congruence|reflexivity..]. }
  split.
  - intros Htask Hgroup. split.
    + unfold approveTask. run_handler. now rewrite Htask, Hgroup, Hedit.
    + unfold taskNeedsWork. run_handler. now rewrite Htask, Hgroup, Hedit.
  - intros Hgroup. split.
    + unfold getGroupApprovals. run_handler. now rewrite Hgroup, Hedit.
    + unfold createGroupTasks. run_handler. now rewrite Hgroup, Hedit.
Qed.

(** *** The approval life cycle *)

Lemma approveTask_answer db now user taskId assignedUserId task' log :
  run (approveTask db now user taskId assignedUserId) = (inr task', log) ->
  exists task group assignee,
    Task_findOne db (linkedTaskQuery taskId assignedUserId) = Some task /\
    Group_getGroup db user (tg_id (t_group task)) = Some group /\
    User_findById db assignedUserId = Some assignee /\
    approved (approval (t_group task)) = false /\
    task' = markApproved now user task /\
    exists saves direction,
      log = saves ++ [SaveTask task';
                      SaveUser (notifyApproved task' group direction assignee)].
Proof.
  intros Hrun.
  destruct (approveTask_inv _ _ _ _ _ _ _ Hrun)
    as (task & group & firstManager & rest & assignee
        & Htask & Hgroup & Hedit & Happroved & Hmanagers & Hassignee).
  rewrite (approveTask_ok _ now _ _ _ _ _ _ _ _
             Htask Hgroup Hedit Happroved Hmanagers Hassignee) in Hrun.
  injection Hrun as <- <-.
  exists task, group, assignee. repeat (split; [assumption || reflexivity|]).
  eexists _, _. reflexivity.
Qed.

Lemma taskNeedsWork_answer db user taskId assignedUserId task' log :
  run (taskNeedsWork db user taskId assignedUserId) = (inr task', log) ->
  exists task,
    Task_findOne db (linkedTaskQuery taskId assignedUserId) = Some task /\
    approved (approval (t_group task)) = false /\
    requested (approval (t_group task)) = true /\
    task' = clearRequest task.
Proof.
  intros Hrun.
  destruct (taskNeedsWork_inv _ _ _ _ _ _ Hrun)
    as (task & group & assignee
        & Htask & Hgroup & Hedit & Happroved & Hrequested & Hassignee).
  rewrite (taskNeedsWork_ok _ _ _ _ _ _ _
             Htask Hgroup Hedit Happroved Hrequested Hassignee) in Hrun.
  injection Hrun as <- <-. exists task. auto.
Qed.

Lemma Task_findOne_in_saved db2 db taskId assignedUserId task task' :
  Task_findOne db (linkedTaskQuery taskId assignedUserId) = Some task ->
  t_id task' = t_id task ->
  tg_taskId (t_group task') = tg_taskId (t_group task) ->
  userId task' = userId task ->
  tasks db2 = tasks (Task_save task' db) ->
  Task_findOne db2 (linkedTaskQuery taskId assignedUserId) = Some task'.
Proof.
  intros Htask Hid Htid Huid Htasks.
  unfold Task_findOne. rewrite Htasks.
  apply (Task_findOne_saved db _ task); [assumption..|].
  apply find_some in Htask. destruct Htask as [_ Hq].
  unfold linkedTaskQuery in *. now rewrite Htid, Huid.
Qed.

Lemma Task_save_same_id task' db t :
  In t (tasks (Task_save task' db)) -> t_id t = t_id task' -> t = task'.
Proof.
  unfold Task_save. cbn [tasks]. intros Hin Hid.
  apply in_map_iff in Hin as (x & Hx & _).
  destruct (String.eqb_spec (t_id x) (t_id task')) as [_|Hne]; congruence.
Qed.

(** X4.  Approved is terminal for needs-work too: once [approveTask] has
    succeeded and its task is stored, [taskNeedsWork] on that linked task by
    any actor who may edit throws NotAuthorized with the
    can-only-approve-once message and starts nothing. *)
Theorem needsWork_after_approve db now user taskId assignedUserId task' log :
  run (approveTask db now user taskId assignedUserId) = (inr task', log) ->
  forall db2 user2 group2,
    tasks db2 = tasks (Task_save task' db) ->
    Group_getGroup db2 user2 (tg_id (t_group task')) = Some group2 ->
    canNotEditTasks group2 user2 None = false ->
    run (taskNeedsWork db2 user2 taskId assignedUserId) =
    (inl (NotAuthorized (res_t "canOnlyApproveTaskOnce" [] None)), []).
Proof.
  intros Hrun db2 user2 group2 Htasks Hgroup2 Hedit2.
  destruct (approveTask_answer _ _ _ _ _ _ _ Hrun)
    as (task & _ & _ & Htask & _ & _ & _ & -> & _).
  unfold taskNeedsWork. run_handler.
  rewrite (Task_findOne_in_saved db2 db _ _ task (markApproved now user task))
    by (assumption || reflexivity).
  now rewrite Hgroup2, Hedit2.
Qed.

(** X5.  Needs-work is not repeatable: once [taskNeedsWork] has succeeded
    and its task is stored, a second [taskNeedsWork] on that linked task
    throws NotAuthorized with the approval-was-not-requested message and
    starts nothing. *)
Theorem needsWork_twice db user taskId assignedUserId task' log :
  run (taskNeedsWork db user taskId assignedUserId) = (inr task', log) ->
  forall db2 user2 group2,
    tasks db2 = tasks (Task_save task' db) ->
    Group_getGroup db2 user2 (tg_id (t_group task')) = Some group2 ->
    canNotEditTasks group2 user2 None = false ->
    run (taskNeedsWork db2 user2 taskId assignedUserId) =
    (inl (NotAuthorized (res_t "taskApprovalWasNotRequested" [] None)), []).
Proof.
  intros Hrun db2 user2 group2 Htasks Hgroup2 Hedit2.
  destruct (taskNeedsWork_answer _ _ _ _ _ _ Hrun)
    as (task & Htask & Happroved & _ & ->).
  unfold taskNeedsWork. run_handler.
  rewrite (Task_findOne_in_saved db2 db _ _ task (clearRequest task))
    by (assumption || reflexivity).
  rewrite Hgroup2, Hedit2. cbn. now rewrite Happroved.
Qed.

(** X6.  [approveTask] does not ask for a pending request: on the task
    stored by a successful [taskNeedsWork], whose [requested] is false, an
    approve by an actor who may edit succeeds (the assigned user and one of
    the leader and managers being stored) and stores it approved, still
    with [requested] false. *)
Theorem approve_after_needsWork db user taskId assignedUserId task' log :
  run (taskNeedsWork db user taskId assignedUserId) = (inr task', log) ->
  forall db2 now2 user2 group2 firstManager rest assignee,
    tasks db2 = tasks (Task_save task' db) ->
    Group_getGroup db2 user2 (tg_id (t_group task')) = Some group2 ->
    canNotEditTasks group2 user2 None = false ->
    User_find db2 (managerIdsOf group2) = firstManager :: rest ->
    User_findById db2 assignedUserId = Some assignee ->
    exists log2,
      run (approveTask db2 now2 user2 taskId assignedUserId) =
        (inr (markApproved now2 user2 task'), log2) /\
      In (SaveTask (markApproved now2 user2 task')) log2 /\
      requested (approval (t_group (markApproved now2 user2 task'))) = false /\
      approved (approval (t_group (markApproved now2 user2 task'))) = true.
Proof.
  intros Hrun db2 now2 user2 group2 firstManager rest assignee
         Htasks Hgroup2 Hedit2 Hmanagers Hassignee.
  destruct (taskNeedsWork_answer _ _ _ _ _ _ Hrun)
    as (task & Htask & Happroved & _ & ->).
  eexists. split.
  { apply (approveTask_ok db2 now2 user2 taskId assignedUserId
             (clearRequest task) group2 firstManager rest assignee);
      try assumption.
    apply (Task_findOne_in_saved db2 db _ _ task (clearRequest task));
      assumption || reflexivity. }
  split; [apply in_or_app; right; simpl; auto|].
  split; reflexivity.
Qed.

(** *** What a decision changes on the task and on the assigned user *)

(** X7.  A successful approve changes nothing on the task but the three
    approval fields: id, type, completion, text, alias, owner, group id,
    canonical task id, [requested] and [requestedDate] are those of the
    stored linked task.  The assigned user is saved last, with the stored
    notifications followed by exactly two new ones, GROUP_TASK_APPROVED
    (with the group's id) then SCORED_TASK (with the approved task). *)
Theorem approveTask_frame db now user taskId assignedUserId task' log :
  run (approveTask db now user taskId assignedUserId) = (inr task', log) ->
  exists task group assignee assignee' message direction,
    Task_findOne db (linkedTaskQuery taskId assignedUserId) = Some task /\
    Group_getGroup db user (tg_id (t_group task)) = Some group /\
    User_findById db assignedUserId = Some assignee /\
    (t_id task', t_type task', completed task', text task', alias task', userId task')
      = (t_id task, t_type task, completed task, text task, alias task, userId task) /\
    (tg_id (t_group task'), tg_taskId (t_group task'),
     requested (approval (t_group task')), requestedDate (approval (t_group task')))
      = (tg_id (t_group task), tg_taskId (t_group task),
         requested (approval (t_group task)), requestedDate (approval (t_group task))) /\
    last log = Some (SaveUser assignee') /\
    (u_id assignee', profile_name assignee', preferences_language assignee')
      = (u_id assignee, profile_name assignee, preferences_language assignee) /\
    notifications assignee' =
      notifications assignee ++
      [Some (mkNotification "GROUP_TASK_APPROVED"
               (Some [("message", JStr message); ("groupId", JStr (g_id group))]) None);
       Some (mkNotification "SCORED_TASK"
               (Some [("message", JStr message); ("scoreTask", JTask task');
                      ("direction", direction)]) None)].
Proof.
  intros Hrun.
  destruct (approveTask_answer _ _ _ _ _ _ _ Hrun)
    as (task & group & assignee & Htask & Hgroup & Hassignee & _ & -> & saves
        & direction & ->).
  exists task, group, assignee. eexists _, _, direction.
  do 3 (split; [assumption|]).
  do 2 (split; [reflexivity|]).
  split; [change (saves ++ [?a; ?b]) with (saves ++ [a] ++ [b]);
          rewrite app_assoc; apply last_snoc|].
  split; [reflexivity|].
  unfold notifyApproved, addNotification. cbn [notifications set_notifications].
  now rewrite <- app_assoc.
Qed.

(** X8.  A successful needs-work changes nothing on the task but
    [requested] and [requestedDate]: the other task fields, and [approved],
    [dateApproved] and [approvingUser], are those of the stored linked task,
    and the task is the last save. *)
Theorem taskNeedsWork_frame db user taskId assignedUserId task' log :
  run (taskNeedsWork db user taskId assignedUserId) = (inr task', log) ->
  exists task,
    Task_findOne db (linkedTaskQuery taskId assignedUserId) = Some task /\
    (t_id task', t_type task', completed task', text task', alias task', userId task')
      = (t_id task, t_type task, completed task, text task, alias task, userId task) /\
    (tg_id (t_group task'), tg_taskId (t_group task'))
      = (tg_id (t_group task), tg_taskId (t_group task)) /\
    (approved (approval (t_group task')), dateApproved (approval (t_group task')),
     approvingUser (approval (t_group task')))
      = (false, dateApproved (approval (t_group task)),
         approvingUser (approval (t_group task))) /\
    last log = Some (SaveTask task').
Proof.
  intros Hrun.
  destruct (taskNeedsWork_inv _ _ _ _ _ _ Hrun)
    as (task & group & assignee
        & Htask & Hgroup & Hedit & Happroved & Hrequested & Hassignee).
  rewrite (taskNeedsWork_ok _ _ _ _ _ _ _
             Htask Hgroup Hedit Happroved Hrequested Hassignee) in Hrun.
  injection Hrun as <- <-.
  exists task. split; [assumption|].
  do 2 (split; [reflexivity|]).
  split; [cbn; now rewrite Happroved|].
  change (?l ++ [?a; ?b]) with (l ++ [a] ++ [b]).
  rewrite app_assoc. apply last_snoc.
Qed.

(** *** The list of pending approvals *)

(** X9.  [getGroupApprovals], when it answers, answers exactly the stored
    tasks of that group whose approval is requested and not yet given, one
    row per task; it starts no save. *)
Theorem getGroupApprovals_exact db user groupId rows log :
  run (getGroupApprovals db user groupId) = (inr rows, log) ->
  log = [] /\
  length rows = length (Task_find db (pendingApprovalQuery groupId)) /\
  (forall t, In t (tasks db) ->
             tg_id (t_group t) = Some groupId ->
             approved (approval (t_group t)) = false ->
             requested (approval (t_group t)) = true ->
             In (populate_userId db t) rows) /\
  (forall row, In row rows ->
     exists t, In t (tasks db) /\ row = populate_userId db t /\
               tg_id (t_group t) = Some groupId /\
               approved (approval (t_group t)) = false /\
               requested (approval (t_group t)) = true).
Proof.
  unfold getGroupApprovals. run_handler.
  destruct (Group_getGroup db user _) as [group|]; [|discriminate].
  destruct (canNotEditTasks group user None); [discriminate|].
  intros [= <- <-]. split; [reflexivity|].
  split; [apply length_map|].
  unfold Task_find, pendingApprovalQuery, field_is. split.
  - intros t Hin Hid Happroved Hrequested.
    apply in_map, filter_In. split; [assumption|].
    now rewrite Hid, Happroved, Hrequested, String.eqb_refl.
  - intros row Hrow. apply in_map_iff in Hrow as (t & <- & Ht).
    apply filter_In in Ht as [Hin Hq].
    apply andb_true_iff in Hq as [Hq Hrequested].
    apply andb_true_iff in Hq as [Hid Happroved].
    apply negb_true_iff in Happroved.
    destruct (tg_id (t_group t)) as [id|] eqn:Hgid; [|discriminate].
    apply String.eqb_eq in Hid as ->.
    exists t. repeat split; assumption || reflexivity.
Qed.

Lemma decided_task_not_listed db2 db user2 groupId task' rows log :
  tasks db2 = tasks (Task_save task' db) ->
  approved (approval (t_group task')) = true
  \/ requested (approval (t_group task')) = false ->
  run (getGroupApprovals db2 user2 groupId) = (inr rows, log) ->
  forall row, In row rows -> row_id row <> t_id task'.
Proof.
  intros Htasks Hdecided Hrows row Hrow Hid.
  destruct (getGroupApprovals_exact _ _ _ _ _ Hrows) as (_ & _ & _ & Hsound).
  destruct (Hsound row Hrow) as (t & Hin & -> & _ & Happroved & Hrequested).
  rewrite Htasks in Hin. apply Task_save_same_id in Hin; [|exact Hid].
  subst t. destruct Hdecided; congruence.
Qed.

(** X10.  A decided task leaves the list: after a successful approve whose
    task is stored, no row of [getGroupApprovals] on that store, for any
    group and any actor, has the task's id. *)
Theorem approved_task_not_listed db now user taskId assignedUserId task' log :
  run (approveTask db now user taskId assignedUserId) = (inr task', log) ->
  forall db2 user2 groupId rows log2,
    tasks db2 = tasks (Task_save task' db) ->
    run (getGroupApprovals db2 user2 groupId) = (inr rows, log2) ->
    forall row, In row rows -> row_id row <> t_id task'.
Proof.
  intros Hrun db2 user2 groupId rows log2 Htasks Hrows.
  destruct (approveTask_answer _ _ _ _ _ _ _ Hrun)
    as (task & _ & _ & _ & _ & _ & _ & -> & _).
  apply (decided_task_not_listed db2 db user2 groupId _ rows log2 Htasks); auto.
Qed.

(** X11.  So does a task sent back: after a successful needs-work whose
    task is stored, no row of [getGroupApprovals] on that store has the
    task's id. *)
Theorem needsWork_task_not_listed db user taskId assignedUserId task' log :
  run (taskNeedsWork db user taskId assignedUserId) = (inr task', log) ->
  forall db2 user2 groupId rows log2,
    tasks db2 = tasks (Task_save task' db) ->
    run (getGroupApprovals db2 user2 groupId) = (inr rows, log2) ->
    forall row, In row rows -> row_id row <> t_id task'.
Proof.
  intros Hrun db2 user2 groupId rows log2 Htasks Hrows.
  destruct (taskNeedsWork_answer _ _ _ _ _ _ Hrun) as (task & _ & _ & _ & ->).
  apply (decided_task_not_listed db2 db user2 groupId _ rows log2 Htasks); auto.
Qed.

(** *** Assigning and unassigning *)

(** X12.  [unassignTask] on a resolved task: without a [group.id] it throws
    NotAuthorized with the only-group-tasks message and starts nothing; with
    one, the group resolved and the actor allowed to edit (unassigning
    oneself included), it answers the task and its only call is the unlink
    of the task from the assigned user: no chat message, no group save. *)
Theorem unassignTask_behaviour db user taskId assignedUserId task :
  Task_findByIdOrAlias db taskId (u_id user) = Some task ->
  (tg_id (t_group task) = None ->
   run (unassignTask db user taskId assignedUserId) =
   (inl (NotAuthorized (res_t "onlyGroupTasksCanBeAssigned" [] None)), []))
  /\
  (forall groupId group,
     tg_id (t_group task) = Some groupId -> groupId <> "" ->
     Group_getGroup db user (Some groupId) = Some group ->
     canEdit group user (Some assignedUserId) = true ->
     run (unassignTask db user taskId assignedUserId) =
     (inr task, [UnlinkTask group task (User_findById db assignedUserId)])).
Proof.
  intros Htask. split.
  - intros Hnone. unfold unassignTask. run_handler. now rewrite Htask, Hnone.
  - intros groupId group Hid Hne Hgroup Hedit.
    unfold canEdit in Hedit. apply negb_true_iff in Hedit.
    unfold unassignTask. run_handler.
    rewrite Htask, Hid. cbn [from_option]. unfold truthy.
    destruct (String.eqb_spec groupId "") as [?|_]; [contradiction|]. cbn [negb].
    now rewrite Hgroup, Hedit.
Qed.

(** X13.  [assignTask] and [unassignTask] accept exactly the same calls:
    on the same store and arguments they answer the same task or throw the
    same error. *)
Theorem assign_unassign_same_answer db user taskId assignedUserId :
  fst (run (assignTask db user taskId assignedUserId)) =
  fst (run (unassignTask db user taskId assignedUserId)).
Proof.
  unfold assignTask, unassignTask. run_handler.
  destruct (Task_findByIdOrAlias db _ _) as [task|]; [|reflexivity].
  destruct (negb (from_option truthy false (tg_id (t_group task)))); [reflexivity|].
  destruct (Group_getGroup db user _) as [group|]; [|reflexivity].
  destruct (canNotEditTasks group user (Some assignedUserId)); [reflexivity|].
  now destruct (String.eqb (u_id user) assignedUserId).
Qed.

(** X14.  Self-service: a member who is neither the leader nor listed with
    [true] in the managers, and whose id names no member of
    [Object.prototype], can assign a group task to their own id, which posts
    the claim message to the group's chat before the sync, and to nobody
    else's: any other target is refused with NotAuthorized. *)
Theorem assignTask_self_service db user taskId assignedUserId task groupId group :
  Task_findByIdOrAlias db taskId (u_id user) = Some task ->
  tg_id (t_group task) = Some groupId -> groupId <> "" ->
  Group_getGroup db user (Some groupId) = Some group ->
  leader group <> u_id user ->
  managers group !! u_id user <> Some true ->
  inherited (u_id user) = false ->
  assignedUserId <> "" ->
  (u_id user = assignedUserId ->
   let message :=
     res_t "userIsClamingTask"
           [("username", profile_name user); ("task", text task)] None in
   run (assignTask db user taskId assignedUserId) =
   (inr task, [SendChat group message; SaveMessage message;
               SyncTask group task (User_findById db assignedUserId);
               SaveGroup group]))
  /\
  (u_id user <> assignedUserId ->
   run (assignTask db user taskId assignedUserId) =
   (inl (NotAuthorized (res_t "onlyGroupLeaderCanEditTasks" [] None)), [])).
Proof.
  intros Htask Hid Hne Hgroup Hleader Hmanager Hinherited Hassigned.
  assert (Hm : truthy_at (managers group) (u_id user) = false).
  { unfold truthy_at. rewrite Hinherited.
    destruct (managers group !! u_id user) as [[|]|]; [congruence|reflexivity..]. }
  apply String.eqb_neq in Hleader, Hne, Hassigned.
  split; intros Hself.
  - intros message. unfold assignTask. run_handler.
    rewrite Htask, Hid. cbn [from_option]. unfold truthy at 1. rewrite Hne.
    cbn [negb]. rewrite Hgroup.
    unfold canNotEditTasks, truthy. rewrite Hleader, Hm, Hassigned.
    apply String.eqb_eq in Hself. now rewrite Hself.
  - unfold assignTask. run_handler.
    rewrite Htask, Hid. cbn [from_option]. unfold truthy at 1. rewrite Hne.
    cbn [negb]. rewrite Hgroup.
    unfold canNotEditTasks, truthy. rewrite Hleader, Hm, Hassigned.
    apply String.eqb_neq in Hself. now rewrite Hself.
Qed.

(** *** Moving a group task *)

(** X15.  A completed todo cannot be moved by anyone: [groupMoveTask] throws
    BadRequest with the cannot-move-completed-todo message and starts
    nothing, for the leader too, and before the group is even looked up. *)
Theorem groupMoveTask_completed_todo db user taskId to task :
  Task_findOne db (fun t => String.eqb (t_id t) taskId) = Some task ->
  t_type task = "todo" ->
  completed task = true ->
  run (groupMoveTask db user taskId to) =
  (inl (BadRequest (res_t "cantMoveCompletedTodo" [] None)), []).
Proof.
  intros Htask Htype Hcompleted.
  unfold groupMoveTask. run_handler. now rewrite Htask, Htype, Hcompleted.
Qed.

(** X16.  A successful move is the leader's, and writes one bucket only: the
    single call started is the save of the task's group, whose id, leader,
    managers and name are as fetched; the bucket of the task's type holds
    the order answered; every other bucket is as fetched. *)
Theorem groupMoveTask_frame db user taskId to order' log :
  run (groupMoveTask db user taskId to) = (inr order', log) ->
  exists task group group',
    Task_findOne db (fun t => String.eqb (t_id t) taskId) = Some task /\
    Group_getGroup db user (tg_id (t_group task)) = Some group /\
    leader group = u_id user /\
    log = [SaveGroup group'] /\
    (g_id group', leader group', managers group', g_name group')
      = (g_id group, leader group, managers group, g_name group) /\
    tasksOrder group' !! (t_type task +:+ "s") = Some order' /\
    (forall bucket, bucket <> t_type task +:+ "s" ->
       tasksOrder group' !! bucket = tasksOrder group !! bucket).
Proof.
  unfold groupMoveTask. run_handler.
  destruct (Task_findOne db _) as [task|] eqn:Htask; [|discriminate].
  destruct (String.eqb (t_type task) "todo" && completed task); [discriminate|].
  destruct (Group_getGroup db user _) as [group|] eqn:Hgroup; [|discriminate].
  destruct (String.eqb_spec (leader group) (u_id user)) as [Hleader|]; [|discriminate].
  cbn [negb].
  destruct (tasksOrder group !! _) as [order|]; [|discriminate].
  intros [= <- <-]. exists task, group. eexists.
  do 3 (split; [assumption || reflexivity|]).
  split; [reflexivity|]. split; [reflexivity|].
  cbn [tasksOrder set_tasksOrder]. split.
  - apply lookup_insert_eq.
  - intros bucket Hbucket. now apply lookup_insert_ne.
Qed.

(** *** The removal loop, counted *)

Lemma filter_first_removed {A : Type} (p : A -> bool) (before : list A) n after :
  (forall x, In x before -> p x = false) -> p n = true ->
  List.filter p (before ++ n :: after) = n :: List.filter p (before ++ after).
Proof.
  intros Hb Hn. induction before as [|y before IH]; simpl.
  - now rewrite Hn.
  - rewrite (Hb y) by (simpl; auto). apply IH. intros z Hz. apply Hb. simpl; auto.
Qed.

Lemma filter_absent {A : Type} (p : A -> bool) (l : list A) :
  (forall x, In x l -> p x = false) -> List.filter p l = [].
Proof.
  intros H. induction l as [|y l IH]; simpl; [reflexivity|].
  rewrite (H y) by (simpl; auto). apply IH. intros z Hz. apply H. simpl; auto.
Qed.

Lemma filter_other_removed {A : Type} (q : A -> bool) (before : list A) n after :
  q n = false ->
  List.filter q (before ++ n :: after) = List.filter q (before ++ after).
Proof. intros Hn. rewrite !List.filter_app. simpl. now rewrite Hn. Qed.

Lemma findNotification_one_task (a b : string) (x : option Notification) :
  findNotification a x = true -> findNotification b x = true -> a = b.
Proof.
  intros Ha Hb.
  destruct (findNotification_true _ _ Ha) as (n & data & -> & Hdata & Hprop & _).
  destruct (findNotification_true _ _ Hb) as (n' & data' & [= <-] & Hdata' & Hprop' & _).
  congruence.
Qed.

(** X17.  The loop takes one pending approval per holder, not all of them:
    it never throws; a user holding [k] pending approvals for the task is
    left with [k - 1] of them (a duplicate stays) and one entry fewer, a user
    holding none keeps the list's length; and it starts exactly one save per
    holder. *)
Theorem removeOldNotifications_counts (task_id : string) (managers' : list User) :
  exists after saves,
    run (removeOldNotifications task_id managers') = (inr after, saves) /\
    Forall2 (fun manager manager' =>
               u_id manager' = u_id manager /\
               pendingCount task_id manager' = Nat.pred (pendingCount task_id manager) /\
               length (notifications manager') =
                 (if (pendingCount task_id manager =? 0)%nat
                  then length (notifications manager)
                  else Nat.pred (length (notifications manager))))
            managers' after /\
    length saves =
      length (List.filter (fun manager =>
                             negb (pendingCount task_id manager =? 0)%nat) managers').
Proof.
  eexists _, _. split; [unfold run; apply removeOldNotifications_run|].
  cbn [app].
  generalize (cleared_scan task_id managers').
  generalize (map (clearPending task_id) managers').
  generalize (map SaveUser (map (clearPending task_id)
                (List.filter (holdsPending task_id) managers'))).
  intros saves after Hcleared. unfold pendingCount.
  induction Hcleared as [|manager rest rest' saves Hnone _ [IH1 IH2]
                         |manager before n after' rest rest' saves Hl Hb Hn _ [IH1 IH2]].
  - split; constructor.
  - split.
    + constructor; [|exact IH1]. now rewrite (filter_absent _ _ Hnone).
    + cbn [List.filter]. rewrite (filter_absent _ _ Hnone). exact IH2.
  - split.
    + constructor; [|exact IH1]. cbn [notifications set_notifications u_id].
      rewrite Hl, (filter_first_removed _ _ _ _ Hb Hn). cbn.
      rewrite !length_app. cbn. split; [reflexivity|]. split; [reflexivity|lia].
    + cbn [List.filter]. rewrite Hl, (filter_first_removed _ _ _ _ Hb Hn). cbn.
      now rewrite IH2.
Qed.

(** X18.  The loop touches pending approvals of this task only: it leaves in
    place, in order, every entry that is not a pending approval of the task,
    and in particular every pending approval of any other task. *)
Theorem removeOldNotifications_other_entries (task_id : string) (managers' : list User) :
  exists after saves,
    run (removeOldNotifications task_id managers') = (inr after, saves) /\
    Forall2 (fun manager manager' =>
               List.filter (fun x => negb (findNotification task_id x))
                           (notifications manager') =
               List.filter (fun x => negb (findNotification task_id x))
                           (notifications manager)
               /\ forall other, other <> task_id ->
                    List.filter (findNotification other) (notifications manager') =
                    List.filter (findNotification other) (notifications manager))
            managers' after.
Proof.
  eexists _, _. split; [unfold run; apply removeOldNotifications_run|].
  cbn [app].
  generalize (cleared_scan task_id managers').
  generalize (map (clearPending task_id) managers').
  generalize (map SaveUser (map (clearPending task_id)
                (List.filter (holdsPending task_id) managers'))).
  intros saves after Hcleared.
  induction Hcleared as [|manager rest rest' saves Hnone _ IH
                         |manager before n after' rest rest' saves Hl Hb Hn _ IH].
  - constructor.
  - constructor; auto.
  - constructor; [|exact IH]. cbn [notifications set_notifications]. rewrite Hl.
    split.
    + symmetry. apply filter_other_removed. now rewrite Hn.
    + intros other Hother. symmetry. apply filter_other_removed.
      destruct (findNotification other n) eqn:Ho; [|reflexivity].
      exfalso. apply Hother. exact (findNotification_one_task _ _ _ Ho Hn).
Qed.

(** X19.  Whose notifications are scanned: the users fetched for approve and
    needs-work are exactly the stored users who are the leader or have an
    entry in the managers mapping, whatever the entry's value. *)
Theorem fetched_managers (db : DB) (group : Group) (u : User) :
  In u (User_find db (managerIdsOf group)) <->
  In u (users db) /\
  (u_id u = leader group \/ is_Some (managers group !! u_id u)).
Proof.
  unfold User_find, managerIdsOf, Object_keys.
  rewrite filter_In, existsb_exists.
  split.
  - intros [Hin (id & Hid & Heq)]. split; [assumption|].
    apply String.eqb_eq in Heq. subst id.
    apply in_app_iff in Hid as [Hkey|[->|[]]]; [right|now left].
    apply list_elem_of_In, list_elem_of_fmap in Hkey as ([k v] & Hk & Hkv).
    apply elem_of_map_to_list in Hkv. cbn in Hk. subst k. eauto.
  - intros [Hin Hwho]. split; [assumption|].
    exists (u_id u). split; [|apply String.eqb_refl].
    apply in_app_iff. destruct Hwho as [->|[v Hv]]; [right; now left|left].
    apply list_elem_of_In, list_elem_of_fmap. exists (u_id u, v).
    split; [reflexivity|]. now apply elem_of_map_to_list.
Qed.

(** *** Absent users *)

(** X20.  [managers[0]] is there whenever the actor is: if the acting user,
    allowed to edit and with an id that names no member of
    [Object.prototype], is in the user store, the fetched leader-plus-managers
    list is not empty, so that [approveTask] on a stored linked task not yet
    approved, of a resolved group and for a stored assigned user, always
    succeeds, requested or not: the task it answers and saves is the stored
    one, approved, dated [now] and signed by the actor. *)
Theorem approveTask_succeeds db now user taskId assignedUserId task group stored assignee :
  Task_findOne db (linkedTaskQuery taskId assignedUserId) = Some task ->
  Group_getGroup db user (tg_id (t_group task)) = Some group ->
  canNotEditTasks group user None = false ->
  inherited (u_id user) = false ->
  approved (approval (t_group task)) = false ->
  In stored (users db) -> u_id stored = u_id user ->
  User_findById db assignedUserId = Some assignee ->
  User_find db (managerIdsOf group) <> [] /\
  exists task' log,
    run (approveTask db now user taskId assignedUserId) = (inr task', log) /\
    In (SaveTask task') log /\
    (t_id task', t_type task', completed task', text task', alias task', userId task')
      = (t_id task, t_type task, completed task, text task, alias task, userId task) /\
    (tg_id (t_group task'), tg_taskId (t_group task'),
     requested (approval (t_group task')), requestedDate (approval (t_group task')))
      = (tg_id (t_group task), tg_taskId (t_group task),
         requested (approval (t_group task)), requestedDate (approval (t_group task))) /\
    (approved (approval (t_group task')), dateApproved (approval (t_group task')),
     approvingUser (approval (t_group task')))
      = (true, Some now, Some (u_id user)).
Proof.
  intros Htask Hgroup Hedit Hinherited Happroved Hstored Hid Hassignee.
  assert (Hin : In stored (User_find db (managerIdsOf group))).
  { apply fetched_managers. split; [assumption|]. rewrite Hid.
    unfold canNotEditTasks, truthy_at in Hedit. rewrite Hinherited in Hedit.
    destruct (String.eqb_spec (leader group) (u_id user)) as [Hl|_]; [now left|].
    right. destruct (managers group !! u_id user) as [[|]|]; [eauto|discriminate..]. }
  destruct (User_find db (managerIdsOf group)) as [|firstManager rest] eqn:Hmanagers;
    [destruct Hin|].
  split; [discriminate|]. eexists _, _. split.
  { eapply approveTask_ok; eassumption. }
  split; [apply in_or_app; right; simpl; auto|].
  repeat split.
Qed.

(** X21.  [taskNeedsWork] for a user who does not exist, the linked task
    and the group being there: it throws the TypeError of
    [assignedUser.preferences.language], not NotFound, after the saves of
    the removal loop were started, and it saves neither the task nor a
    user notification. *)
Theorem taskNeedsWork_absent_user db user taskId assignedUserId task group :
  User_findById db assignedUserId = None ->
  Task_findOne db (linkedTaskQuery taskId assignedUserId) = Some task ->
  Group_getGroup db user (tg_id (t_group task)) = Some group ->
  canNotEditTasks group user None = false ->
  approved (approval (t_group task)) = false ->
  requested (approval (t_group task)) = true ->
  run (taskNeedsWork db user taskId assignedUserId) =
  (inl TypeError,
   map SaveUser (map (clearPending (t_id task))
                     (List.filter (holdsPending (t_id task))
                                  (User_find db (managerIdsOf group))))).
Proof.
  intros Hassignee Htask Hgroup Hedit Happroved Hrequested.
  unfold taskNeedsWork. run_handler.
  rewrite Htask, Hgroup, Hedit, Happroved, Hrequested, Hassignee. cbn [negb].
  now rewrite removeOldNotifications_run.
Qed.

(** *** Creating and reading group tasks *)

(** X22.  [createGroupTasks], when it answers: the actor may edit the group,
    the body is the task itself when exactly one task was created and the
    array of the created tasks otherwise (the empty array for none), and one
    'task create' event is tracked per created task, in order, with the
    actor's id, the task's type and the group's id. *)
Theorem createGroupTasks_answer db user groupId body tracked log :
  run (createGroupTasks db user groupId) = (inr (body, tracked), log) ->
  exists group created,
    Group_getGroup db user (Some groupId) = Some group /\
    canEdit group user None = true /\
    createTasks user group = inr created /\
    log = [] /\
    (forall t, created = [t] -> body = OneTask t) /\
    (length created <> 1%nat -> body = TaskArray created) /\
    length tracked = length created /\
    (forall i t, created !! i = Some t ->
       tracked !! i = Some (mkTracked "task create" (u_id user) "event" "behavior"
                                      (t_type t) (g_id group))).
Proof.
  unfold createGroupTasks, await. run_handler.
  destruct (Group_getGroup db user _) as [group|] eqn:Hgroup; [|discriminate].
  destruct (canNotEditTasks group user None) eqn:Hedit; [discriminate|].
  destruct (createTasks user group) as [e|created] eqn:Hcreated; [discriminate|].
  intros [= <- <- <-]. exists group, created.
  split; [reflexivity|]. split; [unfold canEdit; now rewrite Hedit|].
  split; [assumption|]. split; [reflexivity|].
  split; [intros t ->; reflexivity|].
  split; [intros Hlen; apply Nat.eqb_neq in Hlen; now rewrite Hlen|].
  split; [apply length_map|].
  intros i t Hi. rewrite list_lookup_fmap, Hi. reflexivity.
Qed.

(** X23.  Reading needs no edit rights: for an actor who can see the group
    but is neither leader nor manager, [createGroupTasks] throws NotAuthorized
    while [getGroupTasks] answers what [getTasks] answers for that user and
    group; neither starts a save. *)
Theorem read_but_not_create db user groupId group :
  Group_getGroup db user (Some groupId) = Some group ->
  canEdit group user None = false ->
  run (createGroupTasks db user groupId) =
    (inl (NotAuthorized (res_t "onlyGroupLeaderCanEditTasks" [] None)), []) /\
  run (getGroupTasks db user groupId) = (getTasks user group, []).
Proof.
  intros Hgroup Hedit. unfold canEdit in Hedit. apply negb_false_iff in Hedit.
  split.
  - unfold createGroupTasks. run_handler. now rewrite Hgroup, Hedit.
  - unfold getGroupTasks, await. run_handler. rewrite Hgroup.
    now destruct (getTasks user group).
Qed.

(** *** Reading and removing the first manager's notification *)

(** X24.  The pending approval whose direction approve forwards is the one
    it removes from the first fetched user: when that user's first pending
    approval for the task is [n], the last notification of the assigned
    user, saved last, is the SCORED_TASK one and its [direction] is [n]'s,
    and the first save started is of a document with the first user's id
    whose list is that user's without [n]. *)
Theorem approveTask_reads_what_it_removes db now user taskId assignedUserId task' log :
  run (approveTask db now user taskId assignedUserId) = (inr task', log) ->
  exists task group firstManager rest assignee',
    Task_findOne db (linkedTaskQuery taskId assignedUserId) = Some task /\
    Group_getGroup db user (tg_id (t_group task)) = Some group /\
    User_find db (managerIdsOf group) = firstManager :: rest /\
    last log = Some (SaveUser assignee') /\
    u_id assignee' = assignedUserId /\
    forall before n after,
      notifications firstManager = before ++ Some n :: after ->
      (forall x, In x before -> findNotification (t_id task) x = false) ->
      findNotification (t_id task) (Some n) = true ->
      (exists scoredNote data,
         last (notifications assignee') = Some (Some scoredNote) /\
         n_type scoredNote = "SCORED_TASK" /\
         n_data scoredNote = Some data /\
         prop "direction" data =
           Some (from_option JStr JUndefined (n_direction n))) /\
      (exists firstManager',
         head log = Some (SaveUser firstManager') /\
         u_id firstManager' = u_id firstManager /\
         notifications firstManager' = before ++ after).
Proof.
  intros Hrun.
  destruct (approveTask_inv _ _ _ _ _ _ _ Hrun)
    as (task & group & firstManager & rest & assignee
        & Htask & Hgroup & Hedit & Happroved & Hmanagers & Hassignee).
  rewrite (approveTask_ok _ now _ _ _ _ _ _ _ _
             Htask Hgroup Hedit Happroved Hmanagers Hassignee) in Hrun.
  injection Hrun as <- <-.
  exists task, group, firstManager, rest. eexists.
  do 3 (split; [assumption|]).
  split.
  { change (?l ++ [?a; ?b]) with (l ++ [a] ++ [b]).
    rewrite app_assoc. apply last_snoc. }
  split.
  { cbn [u_id notifyApproved addNotification set_notifications].
    apply find_some in Hassignee. destruct Hassignee as [_ Heq].
    now apply String.eqb_eq in Heq. }
  intros before n after Hl Hb Hn.
  destruct (clearPending_first (t_id task) firstManager before (Some n) after Hl Hb Hn)
    as [Hholds Hclear].
  split.
  - eexists _, _. unfold notifyApproved, addNotification.
    cbn [notifications set_notifications].
    split; [apply last_snoc|]. split; [reflexivity|]. split; [reflexivity|].
    cbn. rewrite Hl. f_equal. now apply taskDirection_first.
  - eexists. cbn [List.filter]. rewrite Hholds. cbn [map app head].
    split; [reflexivity|]. rewrite Hclear. split; reflexivity.
Qed.

End Handlers.


(** ** The theorems on the scenario *)

Import Scenario.

(** Max, the manager, approves Ann's task at time 7; Lea, the leader, tries
    again at time 9 on the store holding the approved task. *)
Lemma approveTask_twice_scenario :
  let task' := markApproved 7 max (linked true false) in
  (exists log,
     run (approveTask res_t canAccess db 7 max "T" "ann") = (inr task', log))
  /\ approved (approval (t_group task')) = true
  /\ run (approveTask res_t canAccess (Task_save task' db) 9 lea "T" "ann") =
     (inl (NotAuthorized "canOnlyApproveTaskOnce"), [])
  /\ Task_findOne (Task_save task' db) (linkedTaskQuery "T" "ann") = Some task'.
Proof.
  destruct (approveTask_twice res_t canAccess db 7 max "T" "ann"
              (linked true false) group1 lea [max] ann
              eq_refl eq_refl eq_refl eq_refl eq_refl eq_refl)
    as (log & Hrun & _ & Happroved & _ & _ & Hsecond).
  split; [exists log; exact Hrun|].
  split; [exact Happroved|].
  exact (Hsecond (Task_save (markApproved 7 max (linked true false)) db) 9 lea group1
           eq_refl eq_refl eq_refl).
Defined.

(** Needs-work on a task that was neither requested nor approved. *)
Lemma taskNeedsWork_not_requested_scenario :
  run (taskNeedsWork res_t canAccess
         (mkDB [lea; max; ann] [linked false false] [group1]) max "T" "ann") =
  (inl (NotAuthorized "taskApprovalWasNotRequested"), []).
Proof.
  exact (taskNeedsWork_not_requested res_t canAccess
           (mkDB [lea; max; ann] [linked false false] [group1]) max "T" "ann"
           (linked false false) group1 eq_refl eq_refl eq_refl eq_refl).
Defined.

(** With [requested] false and [approved] true the error is the once-only
    one, not the approval-was-not-requested one. *)
Lemma taskNeedsWork_not_requested_counterexample :
  let db' := mkDB [lea; max; ann] [linked false true] [group1] in
  Task_findOne db' (linkedTaskQuery "T" "ann") = Some (linked false true)
  /\ requested (approval (t_group (linked false true))) = false
  /\ canEdit group1 lea None = true
  /\ run (taskNeedsWork res_t canAccess db' lea "T" "ann") =
     (inl (NotAuthorized "canOnlyApproveTaskOnce"), [])
  /\ run (taskNeedsWork res_t canAccess db' lea "T" "ann") <>
     (inl (NotAuthorized (res_t "taskApprovalWasNotRequested" [] None)), []).
Proof.
  cbv zeta. repeat split. discriminate.
Qed.

(** Lea, fetched first, holds the pending notification queued with
    direction down: approve forwards it. *)
Lemma approveTask_direction_scenario :
  exists saves assignee,
    snd (run (approveTask res_t canAccess db 7 max "T" "ann")) =
    saves ++ [SaveTask (markApproved 7 max (linked true false));
              SaveUser (notifyApproved res_t (markApproved 7 max (linked true false))
                          group1 (JStr "down") assignee)].
Proof.
  destruct (approveTask_direction res_t canAccess db 7 max "T" "ann" _ _ eq_refl)
    as (task & group & firstManager & rest & assignee & saves & direction
        & Htask & Hgroup & Hmanagers & _ & Hlog & _ & _ & Hfirst).
  injection Htask as <-. injection Hgroup as <-.
  vm_compute in Hmanagers. injection Hmanagers as <- _.
  rewrite (Hfirst [None; greeting]
             (mkNotification "GROUP_TASK_APPROVAL"
                (Some [("groupId", JStr "g1"); ("taskId", JStr "t1")]) (Some "down"))
             [] eq_refl) in Hlog.
  - exists saves, assignee. exact Hlog.
  - intros x [<-|[<-|[]]]; reflexivity.
  - reflexivity.
Defined.

(** Lea, fetched first, holds no pending notification for the task while
    Max holds the one queued with direction down: approve forwards up. *)
Lemma approveTask_direction_counterexample :
  let lea' := mkUser "lea" "Lea" "en" [greeting] in
  let db' := mkDB [lea'; max; ann] [linked true false] [group1] in
  let task' := markApproved 7 lea' (linked true false) in
  User_find db' (managerIdsOf group1) = [lea'; max]
  /\ spec_directionAcrossSet "t1" [lea'; max] = JStr "down"
  /\ run (approveTask res_t canAccess db' 7 lea' "T" "ann") =
     (inr task',
      [SaveUser (set_notifications [greeting] max);
       SaveTask task';
       SaveUser (notifyApproved res_t task' group1 (JStr "up") ann)]).
Proof.
  cbv zeta. repeat split; vm_compute; reflexivity.
Qed.




(** A personal task, with no group, cannot be assigned; the group task can
    be claimed by Ann, which posts the claim message. *)
Lemma assignTask_needs_group_task_scenario :
  run (assignTask res_t canAccess
         (mkDB [lea; max; ann] [personal; canonical] [group1]) lea "P" "ann") =
    (inl (NotAuthorized "onlyGroupTasksCanBeAssigned"), [])
  /\ run (assignTask res_t canAccess db ann "T" "ann") =
     (inr canonical,
      [SendChat group1 "userIsClamingTask"; SaveMessage "userIsClamingTask";
       SyncTask group1 canonical (Some ann); SaveGroup group1]).
Proof.
  split.
  - exact (proj1 (assignTask_needs_group_task res_t canAccess
                    (mkDB [lea; max; ann] [personal; canonical] [group1])
                    lea "P" "ann" personal eq_refl) eq_refl).
  - refine (proj2 (assignTask_needs_group_task res_t canAccess db ann "T" "ann"
                     canonical eq_refl) "g1" group1 eq_refl _ eq_refl eq_refl).
    discriminate.
Defined.

(** The leader, who may edit every task of the group, and Ann in a
    self-assignment both fail to assign the personal task. *)
Lemma assignTask_counterexample :
  let db' := mkDB [lea; max; ann] [personal; canonical] [group1] in
  Task_findByIdOrAlias db' "P" "lea" = Some personal
  /\ tg_id (t_group personal) = None
  /\ canEdit group1 lea (Some "ann") = true
  /\ canEdit group1 ann (Some "ann") = true
  /\ run (assignTask res_t canAccess db' lea "P" "ann") =
     (inl (NotAuthorized "onlyGroupTasksCanBeAssigned"), [])
  /\ run (assignTask res_t canAccess db' ann "P" "ann") =
     (inl (NotAuthorized "onlyGroupTasksCanBeAssigned"), []).
Proof.
  cbv zeta. repeat split; vm_compute; reflexivity.
Qed.

(** Ann's account is gone but Ann's linked task is still stored: approve
    throws a TypeError after the saves of Lea and Max were started. *)
Lemma approveTask_absent_user_scenario :
  run (approveTask res_t canAccess
         (mkDB [lea; max] [linked true false] [group1]) 7 lea "T" "ann") =
  (inl TypeError,
   [SaveUser (set_notifications [None; greeting] lea);
    SaveUser (set_notifications [greeting] max)]).
Proof.
  exact (approveTask_absent_user res_t canAccess
           (mkDB [lea; max] [linked true false] [group1]) 7 lea "T" "ann"
           (linked true false) group1 lea [max]
           eq_refl eq_refl eq_refl eq_refl eq_refl eq_refl).
Defined.

(** Lea moves the group task to index 2; Max, a manager, may not. *)
Lemma groupMoveTask_leader_only_scenario :
  (exists group',
     run (groupMoveTask res_t canAccess db lea "T" 2) =
       (inr ["U"; "V"; "T"], [SaveGroup group'])
     /\ tasksOrder group' !! "todos" = Some ["U"; "V"; "T"])
  /\ run (groupMoveTask res_t canAccess db max "T" 2) =
     (inl (NotAuthorized "onlyGroupLeaderCanEditTasks"), []).
Proof.
  split.
  - destruct (proj2 (proj2 (groupMoveTask_leader_only res_t canAccess db lea "T" 2
                              canonical group1 eq_refl eq_refl))
                    eq_refl eq_refl ["T"; "U"; "V"] eq_refl)
      as (group' & Hrun & _ & Hbucket & _).
    exists group'. split; [exact Hrun|exact Hbucket].
  - refine (proj1 (proj2 (groupMoveTask_leader_only res_t canAccess db max "T" 2
                            canonical group1 eq_refl eq_refl)) eq_refl _).
    discriminate.
Defined.

(** Max, who is not the leader, moves the completed todo: the answer is
    BadRequest, not NotAuthorized; Lea's move of it is refused as well. *)
Lemma groupMoveTask_leader_only_counterexample :
  let db' := mkDB [lea; max] [finished] [group1] in
  leader group1 <> u_id max
  /\ Group_getGroup canAccess db' max (tg_id (t_group finished)) = Some group1
  /\ run (groupMoveTask res_t canAccess db' max "D" 0) =
     (inl (BadRequest "cantMoveCompletedTodo"), [])
  /\ run (groupMoveTask res_t canAccess db' max "D" 0) <>
     (inl (NotAuthorized (res_t "onlyGroupLeaderCanEditTasks" [] None)), [])
  /\ run (groupMoveTask res_t canAccess db' lea "D" 0) =
     (inl (BadRequest "cantMoveCompletedTodo"), []).
Proof.
  cbv zeta. repeat split; try discriminate; vm_compute; reflexivity.
Qed.

(** Max sends Ann's task back: the notification is rendered in French,
    Ann's language, not in Max's German. *)
Lemma taskNeedsWork_effect_scenario :
  exists saves assignee' notification,
    snd (run (taskNeedsWork res_t canAccess db max "T" "ann")) =
      saves ++ [SaveUser assignee'; SaveTask (clearRequest (linked true false))]
    /\ notifications assignee' = [greeting; Some notification]
    /\ n_type notification = "GROUP_TASK_NEEDS_WORK"
    /\ (n_data notification ≫= prop "message") = Some (JStr "taskNeedsWork@fr").
Proof.
  destruct (taskNeedsWork_effect res_t canAccess db max "T" "ann" _ _ eq_refl)
    as (task & group & assignee & assignee' & saves
        & Htask & Hgroup & Hassignee & _ & _ & _ & _ & _ & Hlog & _ & Hnotifications).
  injection Htask as <-. injection Hgroup as <-. injection Hassignee as <-.
  eexists saves, assignee', _. split; [exact Hlog|].
  split; [exact Hnotifications|]. split; reflexivity.
Defined.

(** ** The further properties on the scenario *)

(** Ann is refused by approve, and refused when assigning to Max: nothing
    was started in either call. *)
Lemma thrown_errors_start_nothing_scenario :
  snd (run (approveTask res_t canAccess db 7 ann "T" "ann")) = []
  /\ snd (run (assignTask res_t canAccess db ann "T" "max")) = [].
Proof.
  assert (Hthrown : NotAuthorized "onlyGroupLeaderCanEditTasks" <> TypeError)
    by discriminate.
  split.
  - exact (proj1 (thrown_errors_start_nothing res_t canAccess db 7 ann "T" "ann" 0
                    (NotAuthorized "onlyGroupLeaderCanEditTasks") [] Hthrown)
                 eq_refl).
  - exact (proj1 (proj2 (proj2 (thrown_errors_start_nothing res_t canAccess db 7 ann
                                  "T" "max" 0
                                  (NotAuthorized "onlyGroupLeaderCanEditTasks") []
                                  Hthrown)))
                 eq_refl).
Defined.

(** Ann, neither leader nor manager, is refused by approve, hence by
    needs-work. *)
Lemma approve_errors_are_needsWork_errors_scenario :
  run (taskNeedsWork res_t canAccess db ann "T" "ann") =
  (inl (NotAuthorized "onlyGroupLeaderCanEditTasks"), []).
Proof.
  refine (approve_errors_are_needsWork_errors res_t canAccess db 7 ann "T" "ann"
            _ [] eq_refl _).
  discriminate.
Defined.

(** Ann is the assigned user of the task and may not decide on it. *)
Lemma only_leader_and_managers_decide_scenario :
  run (approveTask res_t canAccess db 7 ann "T" "ann") =
    (inl (NotAuthorized "onlyGroupLeaderCanEditTasks"), [])
  /\ run (getGroupApprovals res_t canAccess db ann "g1") =
     (inl (NotAuthorized "onlyGroupLeaderCanEditTasks"), []).
Proof.
  assert (Hleader : leader group1 <> u_id ann) by discriminate.
  assert (Hmanager : managers group1 !! u_id ann <> Some true)
    by (intros H; vm_compute in H; discriminate H).
  destruct (only_leader_and_managers_decide res_t canAccess createTasks
              db 7 ann "T" "ann" (linked true false) group1 Hleader Hmanager eq_refl)
    as [Hdecide Hlist].
  split.
  - exact (proj1 (Hdecide eq_refl eq_refl)).
  - exact (proj1 (Hlist eq_refl)).
Defined.

(** Max approves, then Lea tries to send the task back. *)
Lemma needsWork_after_approve_scenario :
  run (taskNeedsWork res_t canAccess
         (Task_save (markApproved 7 max (linked true false)) db) lea "T" "ann") =
  (inl (NotAuthorized "canOnlyApproveTaskOnce"), []).
Proof.
  exact (needsWork_after_approve res_t canAccess db 7 max "T" "ann" _ _ eq_refl
           (Task_save (markApproved 7 max (linked true false)) db) lea group1
           eq_refl eq_refl eq_refl).
Defined.

(** Max sends the task back, then Lea tries to do so again. *)
Lemma needsWork_twice_scenario :
  run (taskNeedsWork res_t canAccess
         (Task_save (clearRequest (linked true false)) db) lea "T" "ann") =
  (inl (NotAuthorized "taskApprovalWasNotRequested"), []).
Proof.
  exact (needsWork_twice res_t canAccess db max "T" "ann" _ _ eq_refl
           (Task_save (clearRequest (linked true false)) db) lea group1
           eq_refl eq_refl eq_refl).
Defined.

(** Max sends the task back, then Lea approves it all the same. *)
Lemma approve_after_needsWork_scenario :
  exists log2,
    run (approveTask res_t canAccess
           (Task_save (clearRequest (linked true false)) db) 9 lea "T" "ann") =
    (inr (markApproved 9 lea (clearRequest (linked true false))), log2).
Proof.
  destruct (approve_after_needsWork res_t canAccess db max "T" "ann" _ _ eq_refl
              (Task_save (clearRequest (linked true false)) db) 9 lea group1
              lea [max] ann eq_refl eq_refl eq_refl eq_refl eq_refl)
    as (log2 & Hrun & _).
  exists log2. exact Hrun.
Defined.

(** Ann's greeting stays first, followed by the two new notifications. *)
Lemma approveTask_frame_scenario :
  exists assignee',
    last (snd (run (approveTask res_t canAccess db 7 max "T" "ann"))) =
      Some (SaveUser assignee')
    /\ length (notifications assignee') = 3%nat
    /\ head (notifications assignee') = Some greeting.
Proof.
  destruct (approveTask_frame res_t canAccess db 7 max "T" "ann" _ _ eq_refl)
    as (task & group & assignee & assignee' & message & direction
        & _ & _ & Hassignee & _ & _ & Hlast & _ & Hnotifications).
  injection Hassignee as <-.
  exists assignee'. split; [exact Hlast|].
  rewrite Hnotifications. split; reflexivity.
Defined.

(** The task sent back is the last save. *)
Lemma taskNeedsWork_frame_scenario :
  last (snd (run (taskNeedsWork res_t canAccess db max "T" "ann"))) =
  Some (SaveTask (clearRequest (linked true false))).
Proof.
  destruct (taskNeedsWork_frame res_t canAccess db max "T" "ann" _ _ eq_refl)
    as (task & _ & _ & _ & _ & Hlast).
  exact Hlast.
Defined.

(** Lea lists the approvals of the guild: Ann's two linked tasks. *)
Lemma getGroupApprovals_exact_scenario :
  exists rows,
    run (getGroupApprovals res_t canAccess db_two lea "g1") = (inr rows, [])
    /\ length rows = 2%nat
    /\ In (populate_userId db_two linked2) rows.
Proof.
  destruct (getGroupApprovals_exact res_t canAccess db_two lea "g1" _ _ eq_refl)
    as (_ & Hlength & Hcomplete & _).
  eexists. split; [reflexivity|]. split; [exact Hlength|].
  apply Hcomplete; [simpl; auto|reflexivity..].
Defined.

(** After Max's approval of the first task only the second is listed. *)
Lemma approved_task_not_listed_scenario :
  exists rows,
    run (getGroupApprovals res_t canAccess
           (Task_save (markApproved 7 max (linked true false)) db_two) lea "g1") =
      (inr rows, [])
    /\ length rows = 1%nat
    /\ forall row, In row rows -> row_id row <> "t1".
Proof.
  eexists. split; [reflexivity|]. split; [reflexivity|].
  exact (approved_task_not_listed res_t canAccess db_two 7 max "T" "ann" _ _ eq_refl
           (Task_save (markApproved 7 max (linked true false)) db_two) lea "g1"
           _ _ eq_refl eq_refl).
Defined.

(** After Max sent the first task back only the second is listed. *)
Lemma needsWork_task_not_listed_scenario :
  exists rows,
    run (getGroupApprovals res_t canAccess
           (Task_save (clearRequest (linked true false)) db_two) lea "g1") =
      (inr rows, [])
    /\ length rows = 1%nat
    /\ forall row, In row rows -> row_id row <> "t1".
Proof.
  eexists. split; [reflexivity|]. split; [reflexivity|].
  exact (needsWork_task_not_listed res_t canAccess db_two max "T" "ann" _ _ eq_refl
           (Task_save (clearRequest (linked true false)) db_two) lea "g1"
           _ _ eq_refl eq_refl).
Defined.

(** The personal task cannot be unassigned; Ann unassigns Ann's own id from
    the group task, which only unlinks. *)
Lemma unassignTask_behaviour_scenario :
  run (unassignTask res_t canAccess
         (mkDB [lea; max; ann] [personal; canonical] [group1]) lea "P" "ann") =
    (inl (NotAuthorized "onlyGroupTasksCanBeAssigned"), [])
  /\ run (unassignTask res_t canAccess db ann "T" "ann") =
     (inr canonical, [UnlinkTask group1 canonical (Some ann)]).
Proof.
  split.
  - exact (proj1 (unassignTask_behaviour res_t canAccess
                    (mkDB [lea; max; ann] [personal; canonical] [group1])
                    lea "P" "ann" personal eq_refl) eq_refl).
  - refine (proj2 (unassignTask_behaviour res_t canAccess db ann "T" "ann"
                     canonical eq_refl) "g1" group1 eq_refl _ eq_refl eq_refl).
    discriminate.
Defined.

(** Ann claims the group task; Ann may not assign it to Max. *)
Lemma assignTask_self_service_scenario :
  run (assignTask res_t canAccess db ann "T" "ann") =
    (inr canonical,
     [SendChat group1 "userIsClamingTask"; SaveMessage "userIsClamingTask";
      SyncTask group1 canonical (Some ann); SaveGroup group1])
  /\ run (assignTask res_t canAccess db ann "T" "max") =
     (inl (NotAuthorized "onlyGroupLeaderCanEditTasks"), []).
Proof.
  assert (Hgroup : "g1" <> "") by discriminate.
  assert (Hleader : leader group1 <> u_id ann) by discriminate.
  assert (Hmanager : managers group1 !! u_id ann <> Some true)
    by (intros H; vm_compute in H; discriminate H).
  split.
  - refine (proj1 (assignTask_self_service res_t canAccess db ann "T" "ann"
                     canonical "g1" group1 eq_refl eq_refl Hgroup eq_refl
                     Hleader Hmanager eq_refl _) eq_refl).
    discriminate.
  - refine (proj2 (assignTask_self_service res_t canAccess db ann "T" "max"
                     canonical "g1" group1 eq_refl eq_refl Hgroup eq_refl
                     Hleader Hmanager eq_refl _) _); discriminate.
Defined.

(** Lea, the leader, cannot move the completed todo. *)
Lemma groupMoveTask_completed_todo_scenario :
  run (groupMoveTask res_t canAccess (mkDB [lea] [finished] [group1]) lea "D" 0) =
  (inl (BadRequest "cantMoveCompletedTodo"), []).
Proof.
  exact (groupMoveTask_completed_todo res_t canAccess
           (mkDB [lea] [finished] [group1]) lea "D" 0 finished
           eq_refl eq_refl eq_refl).
Defined.

(** Lea pushes the todo to the bottom: the habits bucket is left alone. *)
Lemma groupMoveTask_frame_scenario :
  exists group',
    snd (run (groupMoveTask res_t canAccess db_party lea "T2" (-1))) =
      [SaveGroup group']
    /\ tasksOrder group' !! "todos" = Some ["U2"; "T2"]
    /\ tasksOrder group' !! "habits" = Some ["H"].
Proof.
  destruct (groupMoveTask_frame res_t canAccess db_party lea "T2" (-1) _ _ eq_refl)
    as (task & group & group' & Htask & Hgroup & _ & Hlog & _ & Hbucket & Hothers).
  injection Htask as <-. injection Hgroup as <-.
  exists group'. split; [exact Hlog|]. split; [exact Hbucket|].
  rewrite (Hothers "habits") by discriminate. reflexivity.
Defined.

(** Max, a stored manager, approves: the fetched list starts with Lea. *)
Lemma approveTask_succeeds_scenario :
  User_find db (managerIdsOf group1) <> []
  /\ exists task' log,
       run (approveTask res_t canAccess db 7 max "T" "ann") = (inr task', log)
       /\ (approved (approval (t_group task')), dateApproved (approval (t_group task')),
           approvingUser (approval (t_group task')))
          = (true, Some 7, Some "max").
Proof.
  destruct (approveTask_succeeds res_t canAccess db 7 max "T" "ann"
              (linked true false) group1 max ann
              eq_refl eq_refl eq_refl eq_refl eq_refl
              (or_intror (or_introl eq_refl)) eq_refl eq_refl)
    as (Hfetched & task' & log & Hrun & _ & _ & _ & Happroved).
  split; [exact Hfetched|]. exists task', log. split; [exact Hrun|exact Happroved].
Defined.

(** Ann's account is gone but Ann's linked task is still stored: needs-work
    throws a TypeError after the saves of Lea and Max were started. *)
Lemma taskNeedsWork_absent_user_scenario :
  run (taskNeedsWork res_t canAccess
         (mkDB [lea; max] [linked true false] [group1]) lea "T" "ann") =
  (inl TypeError,
   [SaveUser (set_notifications [None; greeting] lea);
    SaveUser (set_notifications [greeting] max)]).
Proof.
  exact (taskNeedsWork_absent_user res_t canAccess
           (mkDB [lea; max] [linked true false] [group1]) lea "T" "ann"
           (linked true false) group1
           eq_refl eq_refl eq_refl eq_refl eq_refl eq_refl).
Defined.

(** Lea creates one task: the body is the task, one event is tracked. *)
Lemma createGroupTasks_answer_scenario :
  exists tracked,
    run (createGroupTasks res_t canAccess createTasks db lea "g1") =
      (inr (OneTask canonical, tracked), [])
    /\ tracked !! 0%nat =
       Some (mkTracked "task create" "lea" "event" "behavior" "todo" "g1").
Proof.
  destruct (createGroupTasks_answer res_t canAccess createTasks db lea "g1"
              _ _ _ eq_refl)
    as (group & created & Hgroup & _ & Hcreated & _ & _ & _ & _ & Htracked).
  injection Hgroup as <-. injection Hcreated as <-.
  eexists. split; [reflexivity|].
  exact (Htracked 0%nat canonical eq_refl).
Defined.

(** Ann can read the guild's tasks and cannot create one. *)
Lemma read_but_not_create_scenario :
  run (createGroupTasks res_t canAccess createTasks db ann "g1") =
    (inl (NotAuthorized "onlyGroupLeaderCanEditTasks"), [])
  /\ run (getGroupTasks res_t canAccess getTasks db ann "g1") =
     (inr [canonical; finished], []).
Proof.
  exact (read_but_not_create res_t canAccess createTasks getTasks db ann "g1" group1
           eq_refl eq_refl).
Defined.

(** Max approves: the direction forwarded, down, is that of the notification
    taken from Lea, fetched first. *)
Lemma approveTask_reads_what_it_removes_scenario :
  exists firstManager' assignee' scoredNote data,
    head (snd (run (approveTask res_t canAccess db 7 max "T" "ann"))) =
      Some (SaveUser firstManager')
    /\ notifications firstManager' = [None; greeting]
    /\ last (snd (run (approveTask res_t canAccess db 7 max "T" "ann"))) =
       Some (SaveUser assignee')
    /\ last (notifications assignee') = Some (Some scoredNote)
    /\ n_data scoredNote = Some data
    /\ prop "direction" data = Some (JStr "down").
Proof.
  destruct (approveTask_reads_what_it_removes res_t canAccess db 7 max "T" "ann"
              _ _ eq_refl)
    as (task & group & firstManager & rest & assignee'
        & Htask & Hgroup & Hmanagers & Hlast & _ & Hfirst).
  injection Htask as <-. injection Hgroup as <-.
  vm_compute in Hmanagers. injection Hmanagers as <- _.
  destruct (Hfirst [None; greeting]
              (mkNotification "GROUP_TASK_APPROVAL"
                 (Some [("groupId", JStr "g1"); ("taskId", JStr "t1")]) (Some "down"))
              [] eq_refl)
    as [(scoredNote & data & Hscored & _ & Hdata & Hdirection)
        (firstManager' & Hhead & _ & Hnotifications)].
  - intros x [<-|[<-|[]]]; reflexivity.
  - reflexivity.
  - exists firstManager', assignee', scoredNote, data.
    repeat split; assumption.
Defined.
